(** * ha-tahoma: the heat-recovery ventilation and hot-water controllers

    A shallow embedding of
    [custom_components/tahoma/climate_devices/atlantic_heat_recovery_ventilation.py]
    and
    [custom_components/tahoma/water_heater_devices/domestic_hot_water_production.py].

    Python values live in a small object store: a dict is a heap cell and a
    value of dict type is a reference to it, so that two names for one dict
    see each other's writes.  The entity methods are computations in a
    state-and-exception monad over the world an entity can observe or change:
    the heap, the device's state channels, the commands submitted to the
    executor and the entity's own attributes. *)

From Stdlib Require Import Ascii.
From stdpp Require Import gmap strings list fin_maps.

#[local] Open Scope string_scope.
#[local] Open Scope list_scope.

(** ** Constants of the host framework (homeassistant.const and friends) *)

Module const.
Definition STATE_ON := "on".
Definition STATE_OFF := "off".
Definition STATE_UNKNOWN := "unknown".
Definition ATTR_TEMPERATURE := "temperature".
Definition STATE_ECO := "eco".
Definition STATE_HIGH_DEMAND := "high_demand".
Definition FAN_AUTO := "auto".
Definition HVAC_MODE_FAN_ONLY := "fan_only".
End const.

(** ** Python values, the object store and the effect monad *)

Module Py.

Definition loc := positive.

(** Exceptions the modelled code can raise.  [SystemError] stands for a
    reference to a cell the heap does not hold, which Python never builds. *)
Inductive exn := KeyError | TypeError | AttributeError | SystemError.

Inductive result (A : Type) :=
  | Ok (a : A)
  | Raise (e : exn).
Arguments Ok {A} a.
Arguments Raise {A} e.

(** A [homeassistant.core.State]; [==] on states is equality of the fields. *)
Record State := mkState {
  entity_id : string;
  state : string;
  attributes : gmap string string;
  context : string;
}.

#[global] Instance State_eq_dec : EqDecision State.
Proof. solve_decision. Defined.

Section Values.
(** Python's [float] is kept abstract: no claim computes with one. *)
Context {float : Type}.

Inductive pyval :=
  | PNone
  | PStr (s : string)
  | PInt (z : Z)
  | PFloat (x : float)
  | PRef (l : loc).

(** What a command carries once submitted: a scalar, or the entries the
    dict held at the moment of submission. *)
Inductive arg :=
  | AVal (v : pyval)
  | ADict (d : gmap string pyval).

Record command := Cmd { cmd_name : string; cmd_args : list arg }.

Record world := World {
  heap : gmap loc (gmap string pyval);
  states : gmap string pyval;
  commands : list command;
  _temp_sensor_entity_id : option string;
  _current_temperature : option float;
  error_log : list string;
  scheduled_updates : nat;
}.

Definition set_heap (w : world) h :=
  World h (states w) (commands w) (_temp_sensor_entity_id w)
        (_current_temperature w) (error_log w) (scheduled_updates w).
Definition set_commands (w : world) c :=
  World (heap w) (states w) c (_temp_sensor_entity_id w)
        (_current_temperature w) (error_log w) (scheduled_updates w).
Definition set_current_temperature (w : world) t :=
  World (heap w) (states w) (commands w) (_temp_sensor_entity_id w)
        t (error_log w) (scheduled_updates w).
Definition set_error_log (w : world) l :=
  World (heap w) (states w) (commands w) (_temp_sensor_entity_id w)
        (_current_temperature w) l (scheduled_updates w).
Definition set_scheduled_updates (w : world) n :=
  World (heap w) (states w) (commands w) (_temp_sensor_entity_id w)
        (_current_temperature w) (error_log w) n.

(** *** The monad: state passing, with the state kept when an exception
    is raised (commands already submitted stay submitted). *)
Definition M (A : Type) : Type := world → result A * world.

#[global] Instance M_ret : MRet M := λ A a w, (Ok a, w).
#[global] Instance M_bind : MBind M := λ A B f m w,
  match m w with
  | (Ok a, w') => f a w'
  | (Raise e, w') => (Raise e, w')
  end.

Definition raise {A} (e : exn) : M A := λ w, (Raise e, w).

(** *** Operators on values *)

(** [v == s] for a string constant [s]. *)
Definition py_eq (v : pyval) (s : string) : bool :=
  match v with
  | PStr s' => String.eqb s' s
  | _ => false
  end.

(** Truth value of an argument that is a string or [None]. *)
Definition truthy (o : option string) : bool :=
  match o with
  | None => false
  | Some s => negb (String.eqb s "")
  end.

Definition of_opt (o : option string) : pyval :=
  match o with
  | None => PNone
  | Some s => PStr s
  end.

(** *** Module-level lookup tables: dicts whose keys are strings or [None],
    kept in insertion order. *)
Definition table := list (pyval * pyval).

(** Does the table key [k] equal (and hash like) [v]?  Table keys are
    strings or [None]. *)
Definition key_eqb (k v : pyval) : bool :=
  match k, v with
  | PNone, PNone => true
  | PStr a, PStr b => String.eqb a b
  | _, _ => false
  end.

Fixpoint find_key (t : table) (v : pyval) : option pyval :=
  match t with
  | [] => None
  | (k, x) :: t' => if key_eqb k v then Some x else find_key t' v
  end.

(** [t[k] = x]: overwrite in place, or append. *)
Fixpoint table_set (t : table) (k x : pyval) : table :=
  match t with
  | [] => [(k, x)]
  | (k', x') :: t' =>
      if key_eqb k' k then (k', x) :: t' else (k', x') :: table_set t' k x
  end.

(** [{v: k for k, v in t.items()}] *)
Definition inverted (t : table) : table :=
  foldl (λ acc kv, table_set acc kv.2 kv.1) [] t.

(** [t[v]]: a dict is unhashable, a missing key is a [KeyError]. *)
Definition subscript (t : table) (v : pyval) : result pyval :=
  match v with
  | PRef _ => Raise TypeError
  | _ => match find_key t v with
         | Some x => Ok x
         | None => Raise KeyError
         end
  end.

Definition lift {A} (r : result A) : M A := λ w, (r, w).

(** *** Dicts on the heap *)

(** A dict display [{...}]: a fresh cell. *)
Definition new_dict (d : gmap string pyval) : M pyval := λ w,
  let l := fresh (dom (heap w)) in
  (Ok (PRef l), set_heap w (<[l := d]> (heap w))).

(** [v.get(k)] *)
Definition get (v : pyval) (k : string) : M pyval := λ w,
  match v with
  | PRef l => match heap w !! l with
              | Some d => (Ok (default PNone (d !! k)), w)
              | None => (Raise SystemError, w)
              end
  | _ => (Raise AttributeError, w)
  end.

(** [v[k] = x] *)
Definition setitem (v : pyval) (k : string) (x : pyval) : M unit := λ w,
  match v with
  | PRef l => match heap w !! l with
              | Some d => (Ok (), set_heap w (<[l := <[k := x]> d]> (heap w)))
              | None => (Raise SystemError, w)
              end
  | _ => (Raise TypeError, w)
  end.

(** *** The two collaborators *)

(** Modelled from the spec: [select_state], the read from the Device State
    Store, is not among the sources.  It returns whatever was last received
    for the channel, the stored object itself and not a copy, and [None]
    for a channel that holds nothing. *)
Definition select_state (channel : string) : M pyval := λ w,
  (Ok (default PNone (states w !! channel)), w).

Definition snapshot (h : gmap loc (gmap string pyval)) (v : pyval) : arg :=
  match v with
  | PRef l => match h !! l with
              | Some d => ADict d
              | None => AVal v
              end
  | _ => AVal v
  end.

(** Modelled from the spec: [async_execute_command], the Command Executor,
    is not among the sources.  It submits a named command with positional
    parameters; the log keeps every submission in order, with the
    parameters as they are at that moment. *)
Definition async_execute_command (name : string) (params : list pyval)
  : M unit := λ w,
  (Ok (), set_commands w (commands w ++ [Cmd name (snapshot (heap w) <$> params)])).

(** What the Device State Store shows for a channel: the stored scalar, or
    the entries of the stored record. *)
Definition stored (w : world) (channel : string) : option arg :=
  snapshot (heap w) <$> states w !! channel.

(** The commands an operation added to the log. *)
Definition issued (w w' : world) (cs : list command) : Prop :=
  commands w' = commands w ++ cs.

(** The channel holds a record: a reference to a dict with entries [d]. *)
Definition holds_record (w : world) (channel : string) (l : loc)
    (d : gmap string pyval) : Prop :=
  states w !! channel = Some (PRef l) ∧ heap w !! l = Some d.

(** Every reference a state channel holds points to a cell of the heap. *)
Definition allocated (w : world) : Prop :=
  ∀ channel l, states w !! channel = Some (PRef l) → is_Some (heap w !! l).

(** [w'] is [w] with commands appended to the log and, possibly, new heap
    cells: the state channels, the cells already there and the entity's
    attributes are the same. *)
Definition extends (w w' : world) : Prop :=
  states w' = states w
  ∧ (∀ l d, heap w !! l = Some d → heap w' !! l = Some d)
  ∧ (∃ cs, commands w' = commands w ++ cs)
  ∧ _temp_sensor_entity_id w' = _temp_sensor_entity_id w
  ∧ _current_temperature w' = _current_temperature w
  ∧ error_log w' = error_log w
  ∧ scheduled_updates w' = scheduled_updates w.

Definition set_temp_sensor_entity_id (w : world) e :=
  World (heap w) (states w) (commands w) e
        (_current_temperature w) (error_log w) (scheduled_updates w).

(** The host around one entity, as far as the entity's set-up uses it: the
    items of the entity registry (entity id, unique id) in order, the last
    state of every entity, the entities whose changes are delivered to the
    entity's handler, the listeners waiting for the start event, and the
    warnings logged. *)
Record hass := Hass {
  entity : world;
  entities : list (string * string);
  hass_states : gmap string State;
  tracked : list string;
  start_listeners : nat;
  warnings : list string;
}.

Definition set_entity (h : hass) w :=
  Hass w (entities h) (hass_states h) (tracked h) (start_listeners h)
       (warnings h).

End Values.

Arguments hass : clear implicits.
Arguments pyval : clear implicits.
Arguments arg : clear implicits.
Arguments command : clear implicits.
Arguments world : clear implicits.
Arguments M : clear implicits.
Arguments table : clear implicits.

End Py.

(** ** water_heater_devices/domestic_hot_water_production.py *)

Module DomesticHotWaterProduction.
Import const Py.

Definition IO_DHW_MODE_STATE := "io:DHWModeState".
Definition IO_DHW_BOOST_MODE_STATE := "io:DHWBoostModeState".

Definition STATE_MANUAL := "manual".
Definition STATE_AUTO := "auto".
Definition STATE_ABSENCE := "absence".
Definition STATE_RELAUNCH := "relaunch".

Definition COMMAND_SET_TARGET_TEMPERATURE := "setTargetTemperature".
Definition COMMAND_SET_DHW_MODE := "setDHWMode".
Definition COMMAND_SET_CURRENT_OPERATING_MODE := "setCurrentOperatingMode".
Definition COMMAND_SET_BOOST_MODE_DURATION := "setBoostModeDuration".

Definition MODE_AUTO := "autoMode".
Definition MODE_BOOST := "boost".
Definition MODE_MANUAL_ECO_ACTIVE := "manualEcoActive".
Definition MODE_MANUAL_ECO_INACTIVE := "manualEcoInactive".

Section Entity.
Context {float : Type}.
Abbreviation pyval := (Py.pyval float).
Abbreviation M := (Py.M float).

Definition TAHOMA_TO_OPERATION_MODE : table float :=
  [ (PStr MODE_MANUAL_ECO_ACTIVE, PStr STATE_ECO);
    (PStr MODE_MANUAL_ECO_INACTIVE, PStr STATE_MANUAL);
    (PStr MODE_AUTO, PStr STATE_AUTO);
    (PStr MODE_BOOST, PStr STATE_HIGH_DEMAND) ].

Definition OPERATION_MODE_TO_TAHOMA : table float :=
  inverted TAHOMA_TO_OPERATION_MODE.

Definition current_operation : M pyval :=
  boost ← select_state IO_DHW_BOOST_MODE_STATE;
  if py_eq boost STATE_ON then mret (PStr STATE_HIGH_DEMAND)
  else
    mode ← select_state IO_DHW_MODE_STATE;
    lift (subscript TAHOMA_TO_OPERATION_MODE mode).

(** [kwargs] is the keyword dictionary of the call. *)
Definition async_set_temperature (kwargs : gmap string pyval) : M unit :=
  let target_temperature := default PNone (kwargs !! ATTR_TEMPERATURE) in
  async_execute_command COMMAND_SET_TARGET_TEMPERATURE [target_temperature].

Definition async_set_operation_mode (operation_mode : pyval) : M unit :=
  current ← current_operation;
  (if py_eq current STATE_HIGH_DEMAND
      && negb (py_eq operation_mode STATE_HIGH_DEMAND)
   then
     flags ← new_dict {[ STATE_RELAUNCH := PStr STATE_OFF;
                         STATE_ABSENCE := PStr STATE_OFF ]};
     async_execute_command COMMAND_SET_CURRENT_OPERATING_MODE [flags]
   else mret ());;
  if py_eq operation_mode STATE_HIGH_DEMAND then
    flags ← new_dict {[ STATE_RELAUNCH := PStr STATE_ON;
                        STATE_ABSENCE := PStr STATE_OFF ]};
    async_execute_command COMMAND_SET_CURRENT_OPERATING_MODE [flags];;
    async_execute_command COMMAND_SET_BOOST_MODE_DURATION [PInt 1]
  else
    mode ← lift (subscript OPERATION_MODE_TO_TAHOMA operation_mode);
    async_execute_command COMMAND_SET_DHW_MODE [mode].

Definition CORE_MAXIMAL_TEMPERATURE_MANUAL_MODE_STATE :=
  "core:MaximalTemperatureManualModeState".
Definition CORE_MINIMAL_TEMPERATURE_MANUAL_MODE_STATE :=
  "core:MinimalTemperatureManualModeState".
Definition CORE_TARGET_TEMPERATURE_STATE := "core:TargetTemperatureState".
Definition CORE_OPERATING_MODE_STATE := "core:OperatingModeState".
Definition IO_MIDDLE_WATER_TEMPERATURE_STATE :=
  "io:MiddleWaterTemperatureState".
Definition COMMAND_SET_AWAY_MODE_DURATION := "setAwayModeDuration".

Definition min_temp : M pyval :=
  select_state CORE_MINIMAL_TEMPERATURE_MANUAL_MODE_STATE.

Definition max_temp : M pyval :=
  select_state CORE_MAXIMAL_TEMPERATURE_MANUAL_MODE_STATE.

(** [[*OPERATION_MODE_TO_TAHOMA]]: the keys, in insertion order. *)
Definition operation_list : list pyval := OPERATION_MODE_TO_TAHOMA.*1.

Definition current_temperature : M pyval :=
  select_state IO_MIDDLE_WATER_TEMPERATURE_STATE.

Definition target_temperature : M pyval :=
  select_state CORE_TARGET_TEMPERATURE_STATE.

Definition target_temperature_high : M pyval :=
  select_state CORE_MAXIMAL_TEMPERATURE_MANUAL_MODE_STATE.

Definition target_temperature_low : M pyval :=
  select_state CORE_MINIMAL_TEMPERATURE_MANUAL_MODE_STATE.

Definition is_away_mode_on : M bool :=
  operating_mode ← select_state CORE_OPERATING_MODE_STATE;
  absence ← get operating_mode STATE_ABSENCE;
  mret (py_eq absence STATE_ON).

Definition async_turn_away_mode_on : M unit :=
  flags ← new_dict {[ STATE_RELAUNCH := PStr STATE_OFF;
                      STATE_ABSENCE := PStr STATE_ON ]};
  async_execute_command COMMAND_SET_CURRENT_OPERATING_MODE [flags];;
  async_execute_command COMMAND_SET_AWAY_MODE_DURATION [PInt 2].

Definition async_turn_away_mode_off : M unit :=
  flags ← new_dict {[ STATE_RELAUNCH := PStr STATE_OFF;
                      STATE_ABSENCE := PStr STATE_OFF ]};
  async_execute_command COMMAND_SET_CURRENT_OPERATING_MODE [flags];;
  async_execute_command COMMAND_SET_AWAY_MODE_DURATION [PInt 0].

End Entity.
End DomesticHotWaterProduction.

(** ** climate_devices/atlantic_heat_recovery_ventilation.py *)

Module AtlanticHeatRecoveryVentilation.
Import const Py.

Definition FAN_BOOST := "home_boost".
Definition FAN_KITCHEN := "kitchen_boost".
Definition FAN_AWAY := "away".
Definition FAN_BYPASS := "bypass_boost".

Definition PRESET_AUTO := "auto".
Definition PRESET_PROG := "prog".
Definition PRESET_MANUAL := "manual".

Definition COMMAND_SET_AIR_DEMAND_MODE := "setAirDemandMode".
Definition COMMAND_SET_VENTILATION_CONFIGURATION_MODE :=
  "setVentilationConfigurationMode".
Definition COMMAND_SET_VENTILATION_MODE := "setVentilationMode".
Definition COMMAND_REFRESH_VENTILATION_STATE := "refreshVentilationState".
Definition COMMAND_REFRESH_VENTILATION_CONFIGURATION_MODE :=
  "refreshVentilationConfigurationMode".

Definition IO_AIR_DEMAND_MODE_STATE := "io:AirDemandModeState".
Definition IO_VENTILATION_MODE_STATE := "io:VentilationModeState".
Definition IO_VENTILATION_CONFIGURATION_MODE_STATE :=
  "io:VentilationConfigurationModeState".

Definition PRESET_MODES := [PRESET_AUTO; PRESET_PROG; PRESET_MANUAL].

Section Entity.
Context {float : Type}.
(** The builtin [float(s)] on a string; [None] is its [ValueError]. *)
Variable float_of_str : string → option float.
Abbreviation pyval := (Py.pyval float).
Abbreviation M := (Py.M float).

Definition TAHOMA_TO_FAN_MODES : table float :=
  [ (PStr "auto", PStr FAN_AUTO);
    (PStr "away", PStr FAN_BOOST);
    (PStr "boost", PStr FAN_KITCHEN);
    (PStr "high", PStr FAN_AWAY);
    (PNone, PStr FAN_BYPASS) ].

Definition FAN_MODES_TO_TAHOMA : table float := inverted TAHOMA_TO_FAN_MODES.

(** [_LOGGER.error(msg, ex)]: the log keeps the message. *)
Definition _LOGGER_error (msg : string) : M unit := λ w,
  (Ok (), set_error_log w (error_log w ++ [msg])).

Definition schedule_update_ha_state : M unit := λ w,
  (Ok (), set_scheduled_updates w (S (scheduled_updates w))).

Definition update_temp (state : option State) : M unit :=
  match state with
  | None => mret ()
  | Some st =>
      if String.eqb (Py.state st) STATE_UNKNOWN then mret ()
      else
        match float_of_str (Py.state st) with
        | Some x => λ w, (Ok (), set_current_temperature w (Some x))
        | None => _LOGGER_error "Unable to update from sensor: %s"
        end
  end.

Definition _async_temp_sensor_changed
    (entity_id : string) (old_state new_state : option State) : M unit :=
  if bool_decide (new_state = None) || bool_decide (old_state = new_state)
  then mret ()
  else
    update_temp new_state;;
    schedule_update_ha_state.

Definition current_temperature : M (option float) := λ w,
  (Ok (_current_temperature w), w).

(** Its body is the docstring alone. *)
Definition async_set_hvac_mode (hvac_mode : string) : M unit := mret ().

Definition preset_mode : M pyval :=
  state_ventilation_configuration ←
    select_state IO_VENTILATION_CONFIGURATION_MODE_STATE;
  state_ventilation_mode ← select_state IO_VENTILATION_MODE_STATE;
  state_prog ← get state_ventilation_mode "prog";
  if py_eq state_prog "on" then mret (PStr PRESET_PROG)
  else if py_eq state_ventilation_configuration "comfort"
  then mret (PStr PRESET_AUTO)
  else if py_eq state_ventilation_configuration "standard"
  then mret (PStr PRESET_MANUAL)
  else mret PNone.

Definition _set_ventilation_mode (cooling prog : option string) : M unit :=
  ventilation_mode_state ← select_state IO_VENTILATION_MODE_STATE;
  (if truthy cooling
   then setitem ventilation_mode_state "cooling" (of_opt cooling)
   else mret ());;
  (if truthy prog
   then setitem ventilation_mode_state "prog" (of_opt prog)
   else mret ());;
  async_execute_command COMMAND_SET_VENTILATION_MODE [ventilation_mode_state].

Definition async_set_preset_mode (preset_mode : string) : M unit :=
  (if String.eqb preset_mode PRESET_AUTO then
     async_execute_command
       COMMAND_SET_VENTILATION_CONFIGURATION_MODE [PStr "comfort"];;
     _set_ventilation_mode None (Some "off")
   else mret ());;
  (if String.eqb preset_mode PRESET_PROG then
     async_execute_command
       COMMAND_SET_VENTILATION_CONFIGURATION_MODE [PStr "standard"];;
     _set_ventilation_mode None (Some "on")
   else mret ());;
  (if String.eqb preset_mode PRESET_MANUAL then
     async_execute_command
       COMMAND_SET_VENTILATION_CONFIGURATION_MODE [PStr "standard"];;
     _set_ventilation_mode None (Some "off")
   else mret ());;
  async_execute_command COMMAND_REFRESH_VENTILATION_STATE [];;
  async_execute_command COMMAND_REFRESH_VENTILATION_CONFIGURATION_MODE [].

Definition fan_mode : M pyval :=
  ventilation_mode_state ← select_state IO_VENTILATION_MODE_STATE;
  cooling ← get ventilation_mode_state "cooling";
  if py_eq cooling "on" then mret (PStr FAN_BYPASS)
  else
    demand ← select_state IO_AIR_DEMAND_MODE_STATE;
    lift (subscript TAHOMA_TO_FAN_MODES demand).

Definition async_set_fan_mode (fan_mode : string) : M unit :=
  (if String.eqb fan_mode FAN_BYPASS then
     async_execute_command COMMAND_SET_AIR_DEMAND_MODE [PStr "auto"]
   else
     mode ← lift (subscript FAN_MODES_TO_TAHOMA (PStr fan_mode));
     async_execute_command COMMAND_SET_AIR_DEMAND_MODE [mode]);;
  async_execute_command COMMAND_REFRESH_VENTILATION_STATE [];;
  async_execute_command COMMAND_REFRESH_VENTILATION_CONFIGURATION_MODE [].

Definition preset_modes : list string := PRESET_MODES.

(** [[*FAN_MODES_TO_TAHOMA]]: the keys, in insertion order. *)
Definition fan_modes : list pyval := FAN_MODES_TO_TAHOMA.*1.

(** The attributes [__init__] sets, after the parent's initialiser. *)
Definition __init__ (w : world float) : world float :=
  World (heap w) (states w) (commands w) None None
        (error_log w) (scheduled_updates w).

(** [next((entity_id for entity_id, entry in items
          if entry.unique_id == target), None)] *)
Fixpoint next_entity (target : string) (items : list (string * string))
  : option string :=
  match items with
  | [] => None
  | (entity_id, unique_id) :: rest =>
      if String.eqb unique_id target then Some entity_id
      else next_entity target rest
  end.

Definition _LOGGER_warning (msg : string) (h : hass float) : hass float :=
  Hass (entity h) (entities h) (hass_states h) (tracked h)
       (start_listeners h) (warnings h ++ [msg]).

(** Modelled from the spec: [async_track_state_change], the host's
    subscription to an entity's change notifications, is not among the
    sources.  It registers [_async_temp_sensor_changed] for the entity. *)
Definition async_track_state_change (entity_id : string) (h : hass float)
  : hass float :=
  Hass (entity h) (entities h) (hass_states h) (tracked h ++ [entity_id])
       (start_listeners h) (warnings h).

(** Modelled from the spec: [bus.async_listen_once] for the start event is
    not among the sources.  It registers [_async_startup], to be run once. *)
Definition async_listen_once (h : hass float) : hass float :=
  Hass (entity h) (entities h) (hass_states h) (tracked h)
       (S (start_listeners h)) (warnings h).

(** The closure [_async_startup] of [async_added_to_hass]. *)
Definition _async_startup (h : hass float) : hass float :=
  if truthy (_temp_sensor_entity_id (entity h)) then
    match hass_states h !! default "" (_temp_sensor_entity_id (entity h)) with
    | Some temp_sensor_state =>
        if negb (String.eqb (Py.state temp_sensor_state) STATE_UNKNOWN)
        then set_entity h (update_temp (Some temp_sensor_state) (entity h)).2
        else h
    | None => h
    end
  else h.

(** The body after the parent's [async_added_to_hass]; [base_url] is what
    [get_base_device_url] returned. *)
Definition async_added_to_hass (base_url : string) (h : hass float)
  : hass float :=
  let found := next_entity (base_url ++ "#4") (entities h) in
  let h := set_entity h (set_temp_sensor_entity_id (entity h) found) in
  let h :=
    if truthy (_temp_sensor_entity_id (entity h))
    then async_track_state_change
           (default "" (_temp_sensor_entity_id (entity h))) h
    else _LOGGER_warning
           "Temperature sensor could not be found for entity %s" h in
  let h := async_listen_once h in
  set_entity h (schedule_update_ha_state (entity h)).2.

End Entity.
End AtlanticHeatRecoveryVentilation.

(** ** Concrete worlds and a stand-in for the builtin [float], used to run
    the model *)

Module Examples.
Import const Py.

(** Nothing stored, nothing submitted. *)
Definition empty_world : world Z := World ∅ ∅ [] None None [] 0.

(** A hot-water device in boost. *)
Definition boosting : world Z :=
  World ∅
        {[ "io:DHWBoostModeState" := PStr "on";
           "io:DHWModeState" := PStr "autoMode" ]}
        [] None None [] 0.

(** A ventilation unit in [standard] configuration with the programme on. *)
Definition standard_prog_on : world Z :=
  World {[ 1%positive := {[ "prog" := PStr "on" ]} ]}
        {[ "io:VentilationConfigurationModeState" := PStr "standard";
           "io:VentilationModeState" := PRef 1%positive ]}
        [] None None [] 0.

(** A ventilation unit reporting an air demand the table does not list. *)
Definition unlisted_demand : world Z :=
  World {[ 1%positive := {[ "cooling" := PStr "off"; "prog" := PStr "off" ]} ]}
        {[ "io:VentilationConfigurationModeState" := PStr "eco";
           "io:VentilationModeState" := PRef 1%positive;
           "io:AirDemandModeState" := PStr "low" ]}
        [] None (Some 19%Z) [] 0.

(** A ventilation unit at the air demand "high", cooling off. *)
Definition demand_high : world Z :=
  World {[ 1%positive := {[ "cooling" := PStr "off"; "prog" := PStr "off" ]} ]}
        {[ "io:VentilationConfigurationModeState" := PStr "comfort";
           "io:VentilationModeState" := PRef 1%positive;
           "io:AirDemandModeState" := PStr "high" ]}
        [] None None [] 0.

(** A hot-water device away from home, not boosting. *)
Definition away_eco : world Z :=
  World {[ 1%positive := {[ "relaunch" := PStr "off";
                            "absence" := PStr "on" ]} ]}
        {[ "io:DHWBoostModeState" := PStr "off";
           "io:DHWModeState" := PStr "manualEcoActive";
           "core:OperatingModeState" := PRef 1%positive ]}
        [] None None [] 0.

(** A host whose registry lists the ventilation unit, its temperature
    sensor and a later entry with the same unique id; the sensor's last
    state is 21. *)
Definition host : hass Z :=
  Hass standard_prog_on
       [ ("climate.ventilation", "io://1234-5678-9012/3456789#1");
         ("sensor.ventilation_temperature", "io://1234-5678-9012/3456789#4");
         ("sensor.duplicate", "io://1234-5678-9012/3456789#4") ]
       {[ "sensor.ventilation_temperature" :=
            mkState "sensor.ventilation_temperature" "21" ∅ "ctx" ]}
       [] 0 [].

(** Reads an optional sign and decimal digits; a stand-in for [float]. *)
Fixpoint digits (s : string) (acc : Z) : option Z :=
  match s with
  | EmptyString => Some acc
  | String c s' =>
      let n := Z.of_nat (Ascii.nat_of_ascii c) in
      if bool_decide (48 ≤ n ≤ 57)%Z then digits s' (10 * acc + (n - 48))%Z
      else None
  end.

Definition int_of_str (s : string) : option Z :=
  match s with
  | EmptyString => None
  | String "-"%char s' =>
      match s' with
      | EmptyString => None
      | _ => Z.opp <$> digits s' 0
      end
  | _ => digits s 0
  end.

Definition reading (value : string) : State :=
  mkState "sensor.ventilation_temperature" value ∅ "ctx".

End Examples.

(** ** Facts about the monad and the store operations *)

Module PyFacts.
Import Py.

Section Facts.
Context {float : Type}.
Abbreviation pyval := (Py.pyval float).
Abbreviation M := (Py.M float).
Abbreviation world := (Py.world float).

Lemma bind_ok {A B} (m : M A) (f : A → M B) (w w' : world) (a : A) :
  m w = (Ok a, w') → (m ≫= f) w = f a w'.
Proof. intros E. unfold mbind, M_bind. by rewrite E. Qed.

Lemma bind_raise {A B} (m : M A) (f : A → M B) (w w' : world) (e : exn) :
  m w = (Raise e, w') → (m ≫= f) w = (Raise e, w').
Proof. intros E. unfold mbind, M_bind. by rewrite E. Qed.

Lemma py_eq_true (v : pyval) (s : string) : py_eq v s = true ↔ v = PStr s.
Proof.
  destruct v as [|s'| | |]; simpl; try (split; [discriminate | congruence]).
  rewrite String.eqb_eq. split; congruence.
Qed.

Lemma py_eq_false (v : pyval) (s : string) : py_eq v s = false ↔ v ≠ PStr s.
Proof.
  rewrite <- py_eq_true. destruct (py_eq v s); split; congruence.
Qed.

Lemma snapshot_insert (h : gmap loc (gmap string pyval)) l d :
  snapshot (<[l := d]> h) (PRef l) = ADict d.
Proof. unfold snapshot. by rewrite lookup_insert_eq. Qed.

(** A dict display submitted at once reaches the log with its entries. *)
Lemma submit_display (name : string) (d : gmap string pyval) (w : world) :
  (new_dict d ≫= λ flags, async_execute_command name [flags]) w
  = (Ok (),
     set_commands (set_heap w (<[fresh (dom (heap w)) := d]> (heap w)))
                  (commands w ++ [Cmd name [ADict d]])).
Proof.
  unfold mbind, M_bind, new_dict, async_execute_command.
  cbn [heap set_heap commands fmap list_fmap].
  by rewrite snapshot_insert.
Qed.

(** A display never lands on a cell that is in use. *)
Lemma fresh_cell (h : gmap loc (gmap string pyval)) : h !! fresh (dom h) = None.
Proof. apply not_elem_of_dom, is_fresh. Qed.

End Facts.
End PyFacts.

(** ** The hot-water controller *)

Module HotWaterSpec.
Import const Py PyFacts DomesticHotWaterProduction.

Section Spec.
Context {float : Type}.
Abbreviation pyval := (Py.pyval float).
Abbreviation world := (Py.world float).

(** The three payloads of the module, as they reach the executor. *)
Abbreviation CLEAR_BOOST :=
  (@Cmd float COMMAND_SET_CURRENT_OPERATING_MODE
       [ADict {[ STATE_RELAUNCH := PStr STATE_OFF;
                 STATE_ABSENCE := PStr STATE_OFF ]}]).
Abbreviation ENTER_BOOST :=
  (@Cmd float COMMAND_SET_CURRENT_OPERATING_MODE
       [ADict {[ STATE_RELAUNCH := PStr STATE_ON;
                 STATE_ABSENCE := PStr STATE_OFF ]}]).
Abbreviation BOOST_DURATION :=
  (@Cmd float COMMAND_SET_BOOST_MODE_DURATION [AVal (PInt 1)]).

Ltac run :=
  unfold mbind, M_bind, mret, M_ret, lift, new_dict, async_execute_command,
    select_state;
  cbn [heap set_heap commands set_commands states fmap list_fmap];
  rewrite ?snapshot_insert.

(** The read as a function of the two channels; the world is not changed,
    whether it returns or raises. *)
Lemma current_operation_eq (w : world) :
  current_operation w
  = (if py_eq (default PNone (states w !! IO_DHW_BOOST_MODE_STATE)) STATE_ON
     then Ok (PStr STATE_HIGH_DEMAND)
     else subscript TAHOMA_TO_OPERATION_MODE
            (default PNone (states w !! IO_DHW_MODE_STATE)),
     w).
Proof.
  unfold current_operation, mbind, M_bind, select_state.
  by destruct (py_eq _ STATE_ON).
Qed.

Lemma current_operation_pure (w : world) : (current_operation w).2 = w.
Proof. by rewrite current_operation_eq. Qed.

(** C4. With the boost channel at "on" the read is [high_demand] whatever
    the mode channel holds; otherwise each of the four raw modes reads as its
    table entry, and any other raw value makes the lookup fail: a [KeyError]
    for a value that is not a dict, and the world is left as it was. *)
Theorem current_operation_read (w : world) :
  let boost := default PNone (states w !! IO_DHW_BOOST_MODE_STATE) in
  let raw := default PNone (states w !! IO_DHW_MODE_STATE) in
  (boost = PStr STATE_ON →
     current_operation w = (Ok (PStr STATE_HIGH_DEMAND), w))
  ∧ (boost ≠ PStr STATE_ON →
       (raw = PStr MODE_MANUAL_ECO_ACTIVE →
          current_operation w = (Ok (PStr STATE_ECO), w))
       ∧ (raw = PStr MODE_MANUAL_ECO_INACTIVE →
            current_operation w = (Ok (PStr STATE_MANUAL), w))
       ∧ (raw = PStr MODE_AUTO →
            current_operation w = (Ok (PStr STATE_AUTO), w))
       ∧ (raw = PStr MODE_BOOST →
            current_operation w = (Ok (PStr STATE_HIGH_DEMAND), w))
       ∧ (raw ∉ [PStr MODE_MANUAL_ECO_ACTIVE; PStr MODE_MANUAL_ECO_INACTIVE;
                 PStr MODE_AUTO; PStr MODE_BOOST] →
            ∃ e, current_operation w = (Raise e, w)
                 ∧ ((∀ l, raw ≠ PRef l) → e = KeyError))).
Proof.
  cbv zeta. rewrite current_operation_eq.
  generalize (default PNone (states w !! IO_DHW_MODE_STATE)).
  generalize (default PNone (states w !! IO_DHW_BOOST_MODE_STATE)).
  intros boost raw. split.
  { intros ->. reflexivity. }
  intros Hb. apply py_eq_false in Hb. rewrite Hb.
  do 4 (split; [intros ->; reflexivity|]).
  intros Hraw. unfold subscript, TAHOMA_TO_OPERATION_MODE.
  destruct raw as [|s| | |l]; cbn [find_key key_eqb]; eauto.
  - repeat (case String.eqb_spec;
            [intros <-; exfalso; apply Hraw; set_solver | intros _]).
    eauto.
  - eexists. split; [done|]. intros Hl. by destruct (Hl l).
Qed.

(** C1, as the code has it.  The call submits exactly one
    [setTargetTemperature] command whether or not the request holds a
    temperature: the number when there is one, [None] when there is none.
    Nothing else in the world changes. *)
Theorem set_temperature_submits_once (kwargs : gmap string pyval) (w : world) :
  ∃ w', async_set_temperature kwargs w = (Ok (), w')
    ∧ w' = set_commands w (commands w')
    ∧ (kwargs !! ATTR_TEMPERATURE = None →
         issued w w' [Cmd COMMAND_SET_TARGET_TEMPERATURE [AVal PNone]])
    ∧ (∀ z, kwargs !! ATTR_TEMPERATURE = Some (PInt z) →
         issued w w' [Cmd COMMAND_SET_TARGET_TEMPERATURE [AVal (PInt z)]])
    ∧ (∀ x, kwargs !! ATTR_TEMPERATURE = Some (PFloat x) →
         issued w w' [Cmd COMMAND_SET_TARGET_TEMPERATURE [AVal (PFloat x)]]).
Proof.
  unfold async_set_temperature. run. eexists. split; [reflexivity|].
  unfold issued. cbn [commands set_commands].
  repeat split; intros; by simplify_option_eq.
Qed.

(** The comprehension that builds the reverse table, evaluated. *)
Lemma OPERATION_MODE_TO_TAHOMA_items :
  OPERATION_MODE_TO_TAHOMA
  = ([ (PStr STATE_ECO, PStr MODE_MANUAL_ECO_ACTIVE);
       (PStr STATE_MANUAL, PStr MODE_MANUAL_ECO_INACTIVE);
       (PStr STATE_AUTO, PStr MODE_AUTO);
       (PStr STATE_HIGH_DEMAND, PStr MODE_BOOST) ] : table float).
Proof. reflexivity. Qed.

(** Every entry of the reverse table is a vendor string. *)
Lemma reverse_table_str (target vendor : pyval) :
  subscript OPERATION_MODE_TO_TAHOMA target = Ok vendor → ∃ s, vendor = PStr s.
Proof.
  unfold subscript.
  destruct target as [|s| | |l]; try discriminate.
  rewrite OPERATION_MODE_TO_TAHOMA_items. cbn [find_key key_eqb].
  repeat (case String.eqb_spec; [intros _ [= <-]; eauto | intros _]).
  discriminate.
Qed.

(** C3, as the code has it.  From a raw state on which the current-operation
    read returns: (1) leaving [high_demand] for another target puts the
    clearing [setCurrentOperatingMode {relaunch: off, absence: off}] first
    among the commands of the transaction; (2) the target [high_demand]
    submits exactly [{relaunch: on, absence: off}] and then
    [setBoostModeDuration 1], and no [setDHWMode]; (3) any other target the
    reverse table lists submits, after the clearing command if there is one,
    exactly one [setDHWMode] with the table's vendor value.  The state
    channels are left as they were. *)
Theorem set_operation_mode_transaction (w : world) (current target : pyval) :
  current_operation w = (Ok current, w) →
  ∃ r w', async_set_operation_mode target w = (r, w')
    ∧ states w' = states w
    ∧ (current = PStr STATE_HIGH_DEMAND → target ≠ PStr STATE_HIGH_DEMAND →
         ∃ rest, issued w w' (CLEAR_BOOST :: rest))
    ∧ (target = PStr STATE_HIGH_DEMAND →
         r = Ok ()
         ∧ issued w w' [ENTER_BOOST; BOOST_DURATION]
         ∧ Forall (λ c, cmd_name c ≠ COMMAND_SET_DHW_MODE)
                  [ENTER_BOOST; BOOST_DURATION])
    ∧ (∀ vendor, target ≠ PStr STATE_HIGH_DEMAND →
         subscript OPERATION_MODE_TO_TAHOMA target = Ok vendor →
         r = Ok ()
         ∧ issued w w'
             ((if py_eq current STATE_HIGH_DEMAND then [CLEAR_BOOST] else [])
              ++ [Cmd COMMAND_SET_DHW_MODE [AVal vendor]])).
Proof.
  intros Hread. unfold async_set_operation_mode.
  rewrite (bind_ok _ _ w w current Hread).
  destruct (py_eq target STATE_HIGH_DEMAND) eqn:Et;
    destruct (py_eq current STATE_HIGH_DEMAND) eqn:Ec; cbn [andb negb].
  all: run.
  1, 2: eexists _, _; split; [reflexivity|]; split; [reflexivity|].
  1, 2: apply py_eq_true in Et; subst target.
  1, 2: split; [intros _ Hne; by destruct Hne|].
  1, 2: split; [intros _|intros vendor Hne; by destruct Hne].
  1, 2: split; [done|]; split;
        [unfold issued; cbn [commands set_commands];
         by rewrite <- app_assoc
        |by repeat constructor].
  all: apply py_eq_false in Et.
  all: destruct (subscript OPERATION_MODE_TO_TAHOMA target) as [a|e] eqn:Es.
  all: eexists _, _; split; [reflexivity|]; split; [reflexivity|].
  all: unfold issued; cbn [commands set_commands].
  all: repeat split; try done.
  all: try (intros ->; by apply py_eq_false in Ec).
  all: try (intros _ _; rewrite <- ?app_assoc; by eexists).
  all: simplify_eq.
  all: destruct (reverse_table_str target vendor Es) as [s ->].
  all: by rewrite <- ?app_assoc.
Qed.


(** From a raw state on which the read raises, the transaction raises the
    same exception before anything is submitted. *)
Lemma set_operation_mode_unreadable (w : world) (target : pyval) (e : exn) :
  current_operation w = (Raise e, w) →
  async_set_operation_mode target w = (Raise e, w).
Proof.
  intros Hread. unfold async_set_operation_mode.
  by rewrite (bind_raise _ _ w w e Hread).
Qed.

End Spec.

(** The request without a temperature is not a no-op: one command goes out,
    carrying [None]. *)
Lemma set_temperature_absent_submits :
  ∃ w', async_set_temperature ∅ Examples.empty_world = (Ok (), w')
    ∧ commands w' = [Cmd COMMAND_SET_TARGET_TEMPERATURE [AVal PNone]]
    ∧ ¬ issued Examples.empty_world w' [].
Proof. eexists. split; [reflexivity|]. split; [reflexivity|]. discriminate. Qed.

(** With nothing stored for the mode channel the read raises, and the
    transaction towards [high_demand] submits nothing instead of its two
    commands. *)
Lemma set_operation_mode_nothing_stored :
  async_set_operation_mode (PStr STATE_HIGH_DEMAND) Examples.empty_world
  = (Raise KeyError, Examples.empty_world)
  ∧ ¬ issued Examples.empty_world
        (async_set_operation_mode (PStr STATE_HIGH_DEMAND)
           Examples.empty_world).2
        [Cmd COMMAND_SET_CURRENT_OPERATING_MODE
             [ADict {[ STATE_RELAUNCH := PStr STATE_ON;
                       STATE_ABSENCE := PStr STATE_OFF ]}];
         Cmd COMMAND_SET_BOOST_MODE_DURATION [AVal (PInt 1)]].
Proof. split; [reflexivity|]. discriminate. Qed.

(** Leaving boost for [manual]: the clearing command, then the mode. *)
Lemma set_operation_mode_transaction_witness :
  ∃ r w', async_set_operation_mode (PStr STATE_MANUAL) Examples.boosting = (r, w')
    ∧ r = Ok ()
    ∧ issued Examples.boosting w'
        [Cmd COMMAND_SET_CURRENT_OPERATING_MODE
             [ADict {[ STATE_RELAUNCH := PStr STATE_OFF;
                       STATE_ABSENCE := PStr STATE_OFF ]}];
         Cmd COMMAND_SET_DHW_MODE [AVal (PStr MODE_MANUAL_ECO_INACTIVE)]].
Proof.
  destruct (set_operation_mode_transaction Examples.boosting
              (PStr STATE_HIGH_DEMAND) (PStr STATE_MANUAL))
    as (r & w' & Hrun & _ & _ & _ & Hset); [reflexivity|].
  destruct (Hset (PStr MODE_MANUAL_ECO_INACTIVE)) as [Hr Hcs];
    [discriminate | reflexivity |].
  exists r, w'. split; [exact Hrun|]. split; [exact Hr|]. exact Hcs.
Defined.

Lemma current_operation_read_witness :
  current_operation Examples.boosting
  = (Ok (PStr STATE_HIGH_DEMAND), Examples.boosting).
Proof.
  apply (proj1 (current_operation_read Examples.boosting)). reflexivity.
Defined.

Lemma set_temperature_submits_once_witness :
  ∃ w', async_set_temperature {[ ATTR_TEMPERATURE := PInt 55 ]}
          Examples.empty_world = (Ok (), w')
    ∧ issued Examples.empty_world w'
        [Cmd COMMAND_SET_TARGET_TEMPERATURE [AVal (PInt 55)]].
Proof.
  destruct (set_temperature_submits_once
              {[ ATTR_TEMPERATURE := PInt 55 ]} Examples.empty_world)
    as (w' & Hrun & _ & _ & Hint & _).
  exists w'. split; [exact Hrun|]. apply Hint. reflexivity.
Defined.

End HotWaterSpec.

(** ** The ventilation controller *)

Module VentilationSpec.
Import const Py PyFacts AtlanticHeatRecoveryVentilation.

Section Spec.
Context {float : Type}.
Variable float_of_str : string → option float.
Abbreviation pyval := (Py.pyval float).
Abbreviation world := (Py.world float).

Abbreviation REFRESHES :=
  [@Cmd float COMMAND_REFRESH_VENTILATION_STATE [];
   @Cmd float COMMAND_REFRESH_VENTILATION_CONFIGURATION_MODE []].

(** *** Running the writes *)

(** The programme flag is written into the dict the store holds, and that
    dict is what the command carries. *)
Lemma _set_ventilation_mode_prog (w : world) l d (p : string) :
  holds_record w IO_VENTILATION_MODE_STATE l d →
  p ≠ "" →
  _set_ventilation_mode None (Some p) w
  = (Ok (),
     set_commands
       (set_heap w (<[l := <["prog" := PStr p]> d]> (heap w)))
       (commands w
        ++ [Cmd COMMAND_SET_VENTILATION_MODE [ADict (<["prog" := PStr p]> d)]])).
Proof.
  intros [Hs Hh] Hp.
  unfold _set_ventilation_mode, mbind, M_bind, select_state.
  rewrite Hs. cbn [default from_option id truthy of_opt].
  apply String.eqb_neq in Hp. rewrite Hp. cbn [negb].
  unfold setitem, async_execute_command, mret, M_ret. rewrite Hh.
  cbn [heap set_heap commands fmap list_fmap].
  by rewrite snapshot_insert.
Qed.

Lemma configure_then_prog (w : world) l d (conf p : string) :
  holds_record w IO_VENTILATION_MODE_STATE l d →
  p ≠ "" →
  (async_execute_command COMMAND_SET_VENTILATION_CONFIGURATION_MODE [PStr conf]
   ≫= λ _, _set_ventilation_mode None (Some p)) w
  = (Ok (),
     set_commands
       (set_heap w (<[l := <["prog" := PStr p]> d]> (heap w)))
       (commands w
        ++ [Cmd COMMAND_SET_VENTILATION_CONFIGURATION_MODE [AVal (PStr conf)];
            Cmd COMMAND_SET_VENTILATION_MODE [ADict (<["prog" := PStr p]> d)]])).
Proof.
  intros Hrec Hp. unfold mbind, M_bind.
  unfold async_execute_command at 1. cbn [fmap list_fmap snapshot].
  rewrite (_set_ventilation_mode_prog _ l d p); [|exact Hrec|exact Hp].
  cbn [heap set_heap commands set_commands]. by rewrite <- app_assoc.
Qed.

Lemma refreshes_run (w : world) :
  (async_execute_command COMMAND_REFRESH_VENTILATION_STATE []
   ≫= λ _, async_execute_command
             COMMAND_REFRESH_VENTILATION_CONFIGURATION_MODE []) w
  = (Ok (), set_commands w (commands w ++ REFRESHES)).
Proof.
  unfold mbind, M_bind, async_execute_command.
  cbn [heap set_heap commands set_commands fmap list_fmap].
  by rewrite <- app_assoc.
Qed.

(** Decide the comparisons of string constants that are in the goal. *)
Ltac eval_eqb :=
  repeat match goal with
    | |- context [String.eqb ?a ?b] =>
        let v := eval vm_compute in (String.eqb a b) in
        change (String.eqb a b) with v
    end;
  cbv iota.

Ltac skip_branch := erewrite bind_ok by reflexivity; cbv beta.

(** C5.  With the ventilation-mode channel holding a record, each supported
    preset submits exactly four commands in this order: the configuration
    mode, then [setVentilationMode] with the record whose [prog] entry is
    overwritten, then the two refreshes.  From [standard] with
    [{prog: "on"}], the preset [auto] submits
    [setVentilationConfigurationMode "comfort"],
    [setVentilationMode {prog: "off"}], [refreshVentilationState],
    [refreshVentilationConfigurationMode]. *)
Theorem set_preset_mode_sequence (w : world) l d :
  holds_record w IO_VENTILATION_MODE_STATE l d →
  (∀ preset conf prog,
     (preset, conf, prog) ∈ [ (PRESET_AUTO, "comfort", "off");
                              (PRESET_PROG, "standard", "on");
                              (PRESET_MANUAL, "standard", "off") ] →
     ∃ w', async_set_preset_mode preset w = (Ok (), w')
       ∧ issued w w'
           ([ Cmd COMMAND_SET_VENTILATION_CONFIGURATION_MODE [AVal (PStr conf)];
              Cmd COMMAND_SET_VENTILATION_MODE
                  [ADict (<["prog" := PStr prog]> d)] ]
            ++ REFRESHES))
  ∧ (d = {[ "prog" := PStr "on" ]} →
     states w !! IO_VENTILATION_CONFIGURATION_MODE_STATE
       = Some (PStr "standard") →
     ∃ w', async_set_preset_mode PRESET_AUTO w = (Ok (), w')
       ∧ issued w w'
           [ Cmd COMMAND_SET_VENTILATION_CONFIGURATION_MODE
                 [AVal (PStr "comfort")];
             Cmd COMMAND_SET_VENTILATION_MODE [ADict {[ "prog" := PStr "off" ]}];
             Cmd COMMAND_REFRESH_VENTILATION_STATE [];
             Cmd COMMAND_REFRESH_VENTILATION_CONFIGURATION_MODE [] ]).
Proof.
  intros Hrec.
  assert (Hgen : ∀ preset conf prog,
     (preset, conf, prog) ∈ [ (PRESET_AUTO, "comfort", "off");
                              (PRESET_PROG, "standard", "on");
                              (PRESET_MANUAL, "standard", "off") ] →
     ∃ w', async_set_preset_mode preset w = (Ok (), w')
       ∧ issued w w'
           ([ Cmd COMMAND_SET_VENTILATION_CONFIGURATION_MODE [AVal (PStr conf)];
              Cmd COMMAND_SET_VENTILATION_MODE
                  [ADict (<["prog" := PStr prog]> d)] ]
            ++ REFRESHES)).
  { intros preset conf prog Hin.
    repeat (apply elem_of_cons in Hin as [[= -> -> ->]|Hin]);
      [| | |by apply elem_of_nil in Hin].
    all: unfold async_set_preset_mode; eval_eqb.
    1: erewrite bind_ok by (by apply (configure_then_prog w l d)); cbv beta;
       do 2 skip_branch.
    2: skip_branch;
       erewrite bind_ok by (by apply (configure_then_prog w l d)); cbv beta;
       skip_branch.
    3: do 2 skip_branch;
       erewrite bind_ok by (by apply (configure_then_prog w l d)); cbv beta.
    all: rewrite refreshes_run; eexists; split; [reflexivity|].
    all: unfold issued; cbn [commands set_commands set_heap].
    all: by rewrite <- app_assoc. }
  split; [exact Hgen|].
  intros -> _.
  destruct (Hgen PRESET_AUTO "comfort" "off") as (w' & Hrun & Hcs);
    [set_solver|].
  exists w'. split; [exact Hrun|].
  by rewrite insert_singleton_eq in Hcs.
Qed.

(** C2, as the code has it.  A preset outside the three supported ones is
    not rejected: the call returns normally, none of the three branches
    runs, and exactly the two refresh commands are submitted; nothing else
    changes. *)
Theorem set_preset_mode_unsupported (w : world) (preset : string) :
  preset ∉ PRESET_MODES →
  async_set_preset_mode preset w
  = (Ok (), set_commands w (commands w ++ REFRESHES)).
Proof.
  intros Hout. unfold async_set_preset_mode.
  assert (String.eqb preset PRESET_AUTO = false) as ->
    by (apply String.eqb_neq; intros ->; apply Hout; set_solver).
  assert (String.eqb preset PRESET_PROG = false) as ->
    by (apply String.eqb_neq; intros ->; apply Hout; set_solver).
  assert (String.eqb preset PRESET_MANUAL = false) as ->
    by (apply String.eqb_neq; intros ->; apply Hout; set_solver).
  do 3 skip_branch. apply refreshes_run.
Qed.

(** *** Running the reads *)

Lemma get_default_str (d : gmap string pyval) (k s : string) :
  py_eq (default PNone (d !! k)) s = false ↔ d !! k ≠ Some (PStr s).
Proof.
  rewrite py_eq_false. destruct (d !! k) as [v|]; cbn; [|done].
  split; congruence.
Qed.

Lemma preset_mode_eq (w : world) l d :
  holds_record w IO_VENTILATION_MODE_STATE l d →
  preset_mode w
  = (Ok (let conf :=
           default PNone (states w !! IO_VENTILATION_CONFIGURATION_MODE_STATE)
         in
         if py_eq (default PNone (d !! "prog")) "on" then PStr PRESET_PROG
         else if py_eq conf "comfort" then PStr PRESET_AUTO
         else if py_eq conf "standard" then PStr PRESET_MANUAL
         else PNone),
     w).
Proof.
  intros [Hs Hh]. unfold preset_mode, mbind, M_bind, select_state, get.
  rewrite Hs. cbn [default from_option id]. rewrite Hh. cbv zeta.
  by repeat case (py_eq _ _).
Qed.

Lemma fan_mode_eq (w : world) l d :
  holds_record w IO_VENTILATION_MODE_STATE l d →
  fan_mode w
  = (if py_eq (default PNone (d !! "cooling")) "on"
     then Ok (PStr FAN_BYPASS)
     else subscript TAHOMA_TO_FAN_MODES
            (default PNone (states w !! IO_AIR_DEMAND_MODE_STATE)),
     w).
Proof.
  intros [Hs Hh]. unfold fan_mode, mbind, M_bind, select_state, get.
  rewrite Hs. cbn [default from_option id]. rewrite Hh.
  by case (py_eq _ _).
Qed.

Lemma FAN_MODES_TO_TAHOMA_items :
  FAN_MODES_TO_TAHOMA
  = ([ (PStr FAN_AUTO, PStr "auto");
       (PStr FAN_BOOST, PStr "away");
       (PStr FAN_KITCHEN, PStr "boost");
       (PStr FAN_AWAY, PStr "high");
       (PStr FAN_BYPASS, PNone) ] : table float).
Proof. reflexivity. Qed.

(** What [async_set_fan_mode] submits once the vendor value is known. *)
Lemma set_fan_mode_run (w : world) (mode vendor : string) :
  (if String.eqb mode FAN_BYPASS then Ok (@PStr float "auto")
   else subscript FAN_MODES_TO_TAHOMA (PStr mode)) = Ok (PStr vendor) →
  async_set_fan_mode mode w
  = (Ok (),
     set_commands w
       (commands w
        ++ Cmd COMMAND_SET_AIR_DEMAND_MODE [AVal (PStr vendor)] :: REFRESHES)).
Proof.
  intros Hv. unfold async_set_fan_mode.
  assert (Hfirst :
    (if String.eqb mode FAN_BYPASS
     then async_execute_command COMMAND_SET_AIR_DEMAND_MODE [PStr "auto"]
     else lift (subscript FAN_MODES_TO_TAHOMA (PStr mode))
          ≫= λ v, async_execute_command COMMAND_SET_AIR_DEMAND_MODE [v]) w
    = (Ok (),
       set_commands w
         (commands w
          ++ [Cmd COMMAND_SET_AIR_DEMAND_MODE [AVal (PStr vendor)]]))).
  { destruct (String.eqb mode FAN_BYPASS).
    - by injection Hv as <-.
    - unfold mbind, M_bind, lift. by rewrite Hv. }
  rewrite (bind_ok _ _ _ _ _ Hfirst). cbv beta.
  rewrite refreshes_run. cbn [commands set_commands].
  by rewrite <- app_assoc.
Qed.

(** C7, as the code has it.  With the ventilation-mode channel holding a
    record: [preset_mode] reads [None] when [prog] is not "on" and the
    configuration mode is neither "comfort" nor "standard"; [fan_mode] does
    not degrade, it raises when [cooling] is not "on" and the air-demand
    value is not a key of its table, whose keys are "auto", "away", "boost",
    "high" and [None] (the stored nothing, read as bypass).  Neither read
    changes the world. *)
Theorem unlisted_raw_state_reads (w : world) l d :
  holds_record w IO_VENTILATION_MODE_STATE l d →
  let conf :=
    default PNone (states w !! IO_VENTILATION_CONFIGURATION_MODE_STATE) in
  let demand := default PNone (states w !! IO_AIR_DEMAND_MODE_STATE) in
  (d !! "prog" ≠ Some (PStr "on") →
   conf ∉ [PStr "comfort"; PStr "standard"] →
   preset_mode w = (Ok PNone, w))
  ∧ (d !! "cooling" ≠ Some (PStr "on") →
     demand ∉ [PStr "auto"; PStr "away"; PStr "boost"; PStr "high"; PNone] →
     ∃ e, fan_mode w = (Raise e, w)
          ∧ ((∀ l', demand ≠ PRef l') → e = KeyError)).
Proof.
  intros Hrec. cbv zeta. split.
  - intros Hprog Hconf. rewrite (preset_mode_eq w l d Hrec). cbv zeta.
    apply get_default_str in Hprog. rewrite Hprog.
    assert (py_eq (default PNone
              (states w !! IO_VENTILATION_CONFIGURATION_MODE_STATE))
              "comfort" = false) as ->
      by (apply py_eq_false; intros E; apply Hconf; rewrite E; set_solver).
    assert (py_eq (default PNone
              (states w !! IO_VENTILATION_CONFIGURATION_MODE_STATE))
              "standard" = false) as ->
      by (apply py_eq_false; intros E; apply Hconf; rewrite E; set_solver).
    reflexivity.
  - intros Hcool Hdemand. rewrite (fan_mode_eq w l d Hrec).
    apply get_default_str in Hcool. rewrite Hcool.
    revert Hdemand.
    generalize (default PNone (states w !! IO_AIR_DEMAND_MODE_STATE)).
    intros demand Hdemand. unfold subscript, TAHOMA_TO_FAN_MODES.
    destruct demand as [|s| | |l']; cbn [find_key key_eqb]; eauto.
    + exfalso. apply Hdemand. set_solver.
    + rewrite !(String.eqb_sym _ s).
      repeat (case String.eqb_spec;
              [intros ->; exfalso; apply Hdemand; set_solver | intros _]).
      eauto.
    + eexists. split; [done|]. intros Hl. by destruct (Hl l').
Qed.

(** C6.  Hot water: each of the four raw modes, mapped to its generic value
    and back through the reverse table, comes back unchanged.  Ventilation,
    with cooling not "on": for the raw air demands "auto", "boost" and "high"
    (read as auto, kitchen and away; "away", read as boost, behaves alike)
    the fan mode read, given to [async_set_fan_mode], is sent back as the
    same raw value; the bypass read from the absent raw value is sent back
    as "auto", not as [None]. *)
Theorem mode_tables_round_trip :
  Forall (λ raw : pyval,
            ∃ generic,
              subscript DomesticHotWaterProduction.TAHOMA_TO_OPERATION_MODE raw
                = Ok generic
              ∧ subscript DomesticHotWaterProduction.OPERATION_MODE_TO_TAHOMA
                  generic = Ok raw)
         [ PStr DomesticHotWaterProduction.MODE_MANUAL_ECO_ACTIVE;
           PStr DomesticHotWaterProduction.MODE_MANUAL_ECO_INACTIVE;
           PStr DomesticHotWaterProduction.MODE_AUTO;
           PStr DomesticHotWaterProduction.MODE_BOOST ]
  ∧ ∀ (w : world) l d,
      holds_record w IO_VENTILATION_MODE_STATE l d →
      d !! "cooling" ≠ Some (PStr "on") →
      let demand := default PNone (states w !! IO_AIR_DEMAND_MODE_STATE) in
      (∀ raw mode,
         (raw, mode) ∈ [ ("auto", FAN_AUTO); ("boost", FAN_KITCHEN);
                         ("high", FAN_AWAY); ("away", FAN_BOOST) ] →
         demand = PStr raw →
         fan_mode w = (Ok (PStr mode), w)
         ∧ ∃ w', async_set_fan_mode mode w = (Ok (), w')
             ∧ issued w w'
                 (Cmd COMMAND_SET_AIR_DEMAND_MODE [AVal (PStr raw)]
                  :: REFRESHES))
      ∧ (demand = PNone →
         fan_mode w = (Ok (PStr FAN_BYPASS), w)
         ∧ ∃ w', async_set_fan_mode FAN_BYPASS w = (Ok (), w')
             ∧ issued w w'
                 (Cmd COMMAND_SET_AIR_DEMAND_MODE [AVal (PStr "auto")]
                  :: REFRESHES)
             ∧ ¬ issued w w'
                   (Cmd COMMAND_SET_AIR_DEMAND_MODE [AVal PNone]
                    :: REFRESHES)).
Proof.
  split.
  { repeat constructor; eexists; split; reflexivity. }
  intros w l d Hrec Hcool. cbv zeta.
  rewrite (fan_mode_eq w l d Hrec).
  apply get_default_str in Hcool. rewrite Hcool.
  split.
  - intros raw mode Hin ->.
    repeat (apply elem_of_cons in Hin as [[= -> ->]|Hin]);
      [| | | |by apply elem_of_nil in Hin].
    all: split; [reflexivity|].
    all: eexists; split; [by apply set_fan_mode_run|done].
  - intros ->. split; [reflexivity|].
    eexists. split; [by apply set_fan_mode_run|]. split; [done|].
    unfold issued. cbn [commands set_commands].
    intros E. by apply app_inv_head in E.
Qed.

(** C9.  A notification whose new state is absent or equal to the old one
    leaves the world as it is.  Any other notification returns normally and
    touches neither the heap, the state channels nor the command log: when
    the value does not parse, the cached temperature stays and the failure
    is at most logged (the value "unknown" is dropped before any parse);
    when it parses, the cached temperature becomes the parsed number.  The
    builtin is taken to reject "unknown", as Python's does. *)
Theorem temp_sensor_changed (w : world) (entity_id : string)
    (old_state new_state : option State) :
  float_of_str STATE_UNKNOWN = None →
  ∃ w', _async_temp_sensor_changed float_of_str entity_id old_state new_state w
        = (Ok (), w')
    ∧ heap w' = heap w ∧ states w' = states w ∧ commands w' = commands w
    ∧ _temp_sensor_entity_id w' = _temp_sensor_entity_id w
    ∧ (new_state = None ∨ old_state = new_state → w' = w)
    ∧ (∀ st, new_state = Some st → old_state ≠ new_state →
         match float_of_str (state st) with
         | None =>
             _current_temperature w' = _current_temperature w
             ∧ error_log w'
               = (if String.eqb (state st) STATE_UNKNOWN then error_log w
                  else error_log w ++ ["Unable to update from sensor: %s"])
         | Some x =>
             _current_temperature w' = Some x
             ∧ error_log w' = error_log w
         end).
Proof.
  intros Hunknown. unfold _async_temp_sensor_changed.
  destruct new_state as [st|].
  2: { exists w. cbn. repeat split; try done. }
  rewrite bool_decide_eq_false_2 by done. cbn [orb].
  case bool_decide_reflect; intros Hold.
  { exists w. repeat split; done. }
  unfold mbind, M_bind, update_temp, schedule_update_ha_state, _LOGGER_error,
    mret, M_ret.
  destruct (String.eqb (state st) STATE_UNKNOWN) eqn:Eu.
  - eexists. split; [reflexivity|]. cbn. repeat split; try done.
    { intros [[=]|E]; by destruct Hold. }
    intros st' [= <-] _. apply String.eqb_eq in Eu as Eu'.
    by rewrite Eu', Hunknown, String.eqb_refl.
  - destruct (float_of_str (state st)) as [x|] eqn:Ef.
    all: eexists; split; [reflexivity|]; cbn; repeat split; try done.
    all: try (intros [[=]|E]; by destruct Hold).
    all: intros st' [= <-] _; by rewrite Ef, ?Eu.
Qed.

(** C10.  [async_set_hvac_mode] returns normally for every argument and
    leaves the whole world, command log and entity attributes included, as
    it was. *)
Theorem set_hvac_mode_noop (w : world) (hvac_mode : string) :
  async_set_hvac_mode hvac_mode w = (Ok (), w).
Proof. reflexivity. Qed.

(** Under the record hypothesis, the write of a supported preset replaces
    the record the store shows for the ventilation-mode channel. *)
Lemma set_ventilation_mode_stored (w : world) l d (p : string) :
  holds_record w IO_VENTILATION_MODE_STATE l d →
  p ≠ "" →
  stored w IO_VENTILATION_MODE_STATE = Some (ADict d)
  ∧ stored (_set_ventilation_mode None (Some p) w).2 IO_VENTILATION_MODE_STATE
    = Some (ADict (<["prog" := PStr p]> d)).
Proof.
  intros Hrec Hp. rewrite (_set_ventilation_mode_prog w l d p Hrec Hp).
  destruct Hrec as [Hs Hh]. unfold stored, snapshot. cbn [snd heap states
    set_heap set_commands]. rewrite Hs. cbn [fmap option_fmap option_map].
  by rewrite Hh, lookup_insert_eq.
Qed.

End Spec.

(** C8, evaluated on the code.  Before the call the store shows
    [{prog: "on"}] for the ventilation-mode channel and the preset reads
    [prog]; [async_set_preset_mode "auto"] returns, and with no refresh
    event in between the store shows [{prog: "off"}] and the preset reads
    [manual]: the write went through the reference [select_state] returned
    into the stored record itself. *)
Theorem set_preset_mode_overwrites_stored_record :
  ∃ w', async_set_preset_mode PRESET_AUTO Examples.standard_prog_on
        = (Ok (), w')
    ∧ stored Examples.standard_prog_on IO_VENTILATION_MODE_STATE
      = Some (ADict {[ "prog" := PStr "on" ]})
    ∧ stored w' IO_VENTILATION_MODE_STATE
      = Some (ADict {[ "prog" := PStr "off" ]})
    ∧ states w' = states Examples.standard_prog_on
    ∧ (preset_mode Examples.standard_prog_on).1 = Ok (PStr PRESET_PROG)
    ∧ (preset_mode w').1 = Ok (PStr PRESET_MANUAL).
Proof. eexists. repeat split; reflexivity. Qed.

(** The preset "boost" is not one of the three, yet the call returns
    normally and two commands are submitted. *)
Lemma set_preset_mode_boost_not_rejected :
  ∃ w', async_set_preset_mode "boost" Examples.standard_prog_on = (Ok (), w')
    ∧ ("boost" ∉ PRESET_MODES)
    ∧ commands w'
      = [ Cmd COMMAND_REFRESH_VENTILATION_STATE [];
          Cmd COMMAND_REFRESH_VENTILATION_CONFIGURATION_MODE [] ]
    ∧ ¬ issued Examples.standard_prog_on w' [].
Proof.
  eexists. split; [reflexivity|]. split; [|split; [reflexivity|discriminate]].
  unfold PRESET_MODES. rewrite !not_elem_of_cons.
  repeat split; try discriminate. apply not_elem_of_nil.
Qed.

(** With cooling off and the air demand "low", which the table does not
    list, [fan_mode] raises; it returns no value, unknown or other. *)
Lemma fan_mode_unlisted_demand_raises :
  fan_mode Examples.unlisted_demand = (Raise KeyError, Examples.unlisted_demand)
  ∧ ∀ v, (fan_mode Examples.unlisted_demand).1 ≠ Ok v.
Proof. split; [reflexivity|]. intros v. discriminate. Qed.

Lemma set_preset_mode_sequence_witness :
  ∃ w', async_set_preset_mode PRESET_AUTO Examples.standard_prog_on
        = (Ok (), w')
    ∧ issued Examples.standard_prog_on w'
        [ Cmd COMMAND_SET_VENTILATION_CONFIGURATION_MODE [AVal (PStr "comfort")];
          Cmd COMMAND_SET_VENTILATION_MODE [ADict {[ "prog" := PStr "off" ]}];
          Cmd COMMAND_REFRESH_VENTILATION_STATE [];
          Cmd COMMAND_REFRESH_VENTILATION_CONFIGURATION_MODE [] ].
Proof.
  apply (proj2 (set_preset_mode_sequence Examples.standard_prog_on
                  1%positive {[ "prog" := PStr "on" ]}
                  (conj eq_refl eq_refl)));
    reflexivity.
Defined.

Lemma set_preset_mode_unsupported_witness :
  async_set_preset_mode "boost" Examples.standard_prog_on
  = (Ok (),
     set_commands Examples.standard_prog_on
       [ Cmd COMMAND_REFRESH_VENTILATION_STATE [];
         Cmd COMMAND_REFRESH_VENTILATION_CONFIGURATION_MODE [] ]).
Proof.
  apply (set_preset_mode_unsupported Examples.standard_prog_on "boost").
  unfold PRESET_MODES. rewrite !not_elem_of_cons.
  repeat split; try discriminate. apply not_elem_of_nil.
Defined.

Lemma unlisted_raw_state_reads_witness :
  preset_mode Examples.unlisted_demand = (Ok PNone, Examples.unlisted_demand)
  ∧ ∃ e, fan_mode Examples.unlisted_demand
         = (Raise e, Examples.unlisted_demand).
Proof.
  destruct (unlisted_raw_state_reads Examples.unlisted_demand 1%positive
              {[ "cooling" := PStr "off"; "prog" := PStr "off" ]}
              (conj eq_refl eq_refl)) as [Hpreset Hfan].
  split.
  - apply Hpreset; [discriminate|].
    rewrite !not_elem_of_cons. repeat split; try discriminate.
    apply not_elem_of_nil.
  - destruct Hfan as (e & He & _); [discriminate| |by exists e].
    rewrite !not_elem_of_cons. repeat split; try discriminate.
    apply not_elem_of_nil.
Defined.

Lemma mode_tables_round_trip_witness :
  fan_mode Examples.demand_high = (Ok (PStr FAN_AWAY), Examples.demand_high)
  ∧ ∃ w', async_set_fan_mode FAN_AWAY Examples.demand_high = (Ok (), w')
      ∧ issued Examples.demand_high w'
          [ Cmd COMMAND_SET_AIR_DEMAND_MODE [AVal (PStr "high")];
            Cmd COMMAND_REFRESH_VENTILATION_STATE [];
            Cmd COMMAND_REFRESH_VENTILATION_CONFIGURATION_MODE [] ].
Proof.
  destruct (proj2 (mode_tables_round_trip (float:=Z)) Examples.demand_high
              1%positive {[ "cooling" := PStr "off"; "prog" := PStr "off" ]}
              (conj eq_refl eq_refl)) as [Hstr _]; [discriminate|].
  apply (Hstr "high" FAN_AWAY); [|reflexivity].
  rewrite !elem_of_cons. auto.
Defined.

(** The reading "21" after "19" replaces the cache; the stand-in for the
    builtin rejects "unknown". *)
Lemma temp_sensor_changed_witness :
  ∃ w', _async_temp_sensor_changed Examples.int_of_str
          "sensor.ventilation_temperature"
          (Some (Examples.reading "19")) (Some (Examples.reading "21"))
          Examples.unlisted_demand = (Ok (), w')
    ∧ _current_temperature Examples.unlisted_demand = Some 19%Z
    ∧ _current_temperature w' = Some 21%Z.
Proof.
  destruct (temp_sensor_changed Examples.int_of_str Examples.unlisted_demand
              "sensor.ventilation_temperature"
              (Some (Examples.reading "19")) (Some (Examples.reading "21")))
    as (w' & Hrun & _ & _ & _ & _ & _ & Hnew); [reflexivity|].
  exists w'. split; [exact Hrun|]. split; [reflexivity|].
  apply (Hnew (Examples.reading "21")); [reflexivity|discriminate].
Defined.

End VentilationSpec.

(** ** What the operations leave alone *)

Module FrameFacts.
Import const Py PyFacts.

Section Frame.
Context {float : Type}.
Abbreviation pyval := (Py.pyval float).
Abbreviation M := (Py.M float).
Abbreviation world := (Py.world float).

Lemma extends_refl (w : world) : extends w w.
Proof. repeat split; try done. exists []. by rewrite app_nil_r. Qed.

Lemma extends_trans (w1 w2 w3 : world) :
  extends w1 w2 → extends w2 w3 → extends w1 w3.
Proof.
  intros (Hs & Hh & [cs Hc] & Hb & Ht & He & Hu)
         (Hs' & Hh' & [cs' Hc'] & Hb' & Ht' & He' & Hu').
  repeat split; try congruence.
  - intros l d Hl. by apply Hh', Hh.
  - exists (cs ++ cs'). by rewrite Hc', Hc, app_assoc.
Qed.

Lemma bind_extends {A B} (m : M A) (f : A → M B) :
  (∀ w, extends w (m w).2) → (∀ a w, extends w (f a w).2) →
  ∀ w, extends w ((m ≫= f) w).2.
Proof.
  intros Hm Hf w. unfold mbind, M_bind.
  specialize (Hm w). destruct (m w) as [[a|e] w1]; [|exact Hm].
  eapply extends_trans; [exact Hm|apply Hf].
Qed.

Lemma mret_extends {A} (a : A) (w : world) :
  extends w ((mret a : M A) w).2.
Proof. apply extends_refl. Qed.

Lemma lift_extends {A} (r : result A) (w : world) : extends w (lift r w).2.
Proof. apply extends_refl. Qed.

Lemma select_state_extends (channel : string) (w : world) :
  extends w (select_state channel w).2.
Proof. apply extends_refl. Qed.

Lemma get_extends (v : pyval) (k : string) (w : world) :
  extends w (get v k w).2.
Proof.
  unfold get. destruct v; try apply extends_refl.
  destruct (heap w !! l); apply extends_refl.
Qed.

Lemma new_dict_extends (d : gmap string pyval) (w : world) :
  extends w (new_dict d w).2.
Proof.
  unfold new_dict, extends.
  cbn [snd heap states commands set_heap _temp_sensor_entity_id
       _current_temperature error_log scheduled_updates].
  repeat split; try done.
  - intros l d' Hl. rewrite lookup_insert_ne; [done|].
    intros <-. by rewrite fresh_cell in Hl.
  - exists []. by rewrite app_nil_r.
Qed.

Lemma execute_extends (name : string) (params : list pyval) (w : world) :
  extends w (async_execute_command name params w).2.
Proof. unfold async_execute_command. cbn. repeat split; try done. by eexists. Qed.

(** Under [extends], a well-formed store shows the same for every channel. *)
Lemma extends_stored (w w' : world) (channel : string) :
  allocated w → extends w w' → stored w' channel = stored w channel.
Proof.
  intros Hal (Hs & Hh & _). unfold stored. rewrite Hs.
  destruct (states w !! channel) as [v|] eqn:E; [|done]. cbn.
  destruct v as [| | | |l]; try done.
  destruct (Hal channel l E) as [d Hd]. unfold snapshot.
  by rewrite Hd, (Hh l d Hd).
Qed.

Lemma extends_allocated (w w' : world) :
  allocated w → extends w w' → allocated w'.
Proof.
  intros Hal (Hs & Hh & _) channel l Hl. rewrite Hs in Hl.
  destruct (Hal channel l Hl) as [d Hd]. exists d. by apply Hh.
Qed.

End Frame.

Ltac keeps :=
  repeat first
    [ apply mret_extends | apply lift_extends | apply select_state_extends
    | apply get_extends | apply new_dict_extends | apply execute_extends
    | apply extends_refl
    | apply bind_extends; [intros ?|intros ? ?]
    | match goal with
      | |- extends _ ((if ?b then _ else _) _).2 => destruct b
      end ].

End FrameFacts.

(** ** The lookup tables as dicts *)

Module TableFacts.
Import Py.

Section Tables.
Context {float : Type}.
Abbreviation pyval := (Py.pyval float).
Abbreviation table := (Py.table float).

(** Keys that compare equal are the same string or both [None]. *)
Lemma key_eqb_eq (k v : pyval) : key_eqb k v = true → k = v.
Proof.
  destruct k, v; cbn; try discriminate; [done|].
  by intros ->%String.eqb_eq.
Qed.

(** Item assignment, then lookup: the assigned key reads the new value and
    every other key reads what it read before. *)
Lemma find_key_table_set (t : table) (k x v : pyval) :
  find_key (table_set t k x) v
  = if key_eqb k v then Some x else find_key t v.
Proof.
  induction t as [|[k' x'] t IH]; cbn [table_set find_key].
  - by destruct (key_eqb k v).
  - destruct (key_eqb k' k) eqn:Ek; cbn [find_key].
    + apply key_eqb_eq in Ek as ->. by destruct (key_eqb k v).
    + rewrite IH. destruct (key_eqb k' v) eqn:Ev; [|done].
      destruct (key_eqb k v) eqn:Ekv; [|done].
      pose proof (key_eqb_eq _ _ Ev) as ->.
      pose proof (key_eqb_eq _ _ Ekv) as ->. congruence.
Qed.




End Tables.
End TableFacts.

(** ** More of the hot-water controller *)

Module HotWaterExtra.
Import const Py PyFacts FrameFacts DomesticHotWaterProduction.

Section Spec.
Context {float : Type}.
Abbreviation pyval := (Py.pyval float).
Abbreviation world := (Py.world float).

Abbreviation CLEAR_BOOST :=
  (@Cmd float COMMAND_SET_CURRENT_OPERATING_MODE
       [ADict {[ STATE_RELAUNCH := PStr STATE_OFF;
                 STATE_ABSENCE := PStr STATE_OFF ]}]).

Lemma operation_list_items :
  operation_list
  = ([ PStr STATE_ECO; PStr STATE_MANUAL; PStr STATE_AUTO;
       PStr STATE_HIGH_DEMAND ] : list pyval).
Proof. reflexivity. Qed.

(** The transaction as a function of what the read returned. *)
Lemma set_operation_mode_eq (w : world) (current target : pyval) :
  current_operation w = (Ok current, w) →
  async_set_operation_mode target w
  = if py_eq target STATE_HIGH_DEMAND then
      (Ok (),
       set_commands
         (set_heap w
            (<[fresh (dom (heap w)) :=
                 {[ STATE_RELAUNCH := PStr STATE_ON;
                    STATE_ABSENCE := PStr STATE_OFF ]}]> (heap w)))
         (commands w
          ++ [ Cmd COMMAND_SET_CURRENT_OPERATING_MODE
                   [ADict {[ STATE_RELAUNCH := PStr STATE_ON;
                             STATE_ABSENCE := PStr STATE_OFF ]}];
               Cmd COMMAND_SET_BOOST_MODE_DURATION [AVal (PInt 1)] ]))
    else
      let w1 :=
        if py_eq current STATE_HIGH_DEMAND then
          set_commands
            (set_heap w
               (<[fresh (dom (heap w)) :=
                    {[ STATE_RELAUNCH := PStr STATE_OFF;
                       STATE_ABSENCE := PStr STATE_OFF ]}]> (heap w)))
            (commands w ++ [CLEAR_BOOST])
        else w in
      match subscript OPERATION_MODE_TO_TAHOMA target with
      | Ok vendor =>
          (Ok (),
           set_commands w1
             (commands w1 ++ [Cmd COMMAND_SET_DHW_MODE [AVal vendor]]))
      | Raise e => (Raise e, w1)
      end.
Proof.
  intros Hread. unfold async_set_operation_mode.
  rewrite (bind_ok _ _ w w current Hread).
  destruct (py_eq target STATE_HIGH_DEMAND) eqn:Et;
    destruct (py_eq current STATE_HIGH_DEMAND) eqn:Ec; cbn [andb negb].
  all: unfold mbind, M_bind, mret, M_ret, lift, new_dict,
         async_execute_command.
  all: cbn [heap set_heap commands set_commands states fmap list_fmap].
  all: rewrite ?snapshot_insert, <- ?app_assoc; try reflexivity.
  all: destruct (subscript OPERATION_MODE_TO_TAHOMA target) as [a|e] eqn:Es;
         [|reflexivity].
  all: destruct (HotWaterSpec.reverse_table_str target a Es) as [s ->].
  all: reflexivity.
Qed.

(** X2.  Turning away mode on submits [{relaunch: off, absence: on}] and then
    [setAwayModeDuration 2]; turning it off submits
    [{relaunch: off, absence: off}], the command that also clears boost, and
    then [setAwayModeDuration 0].  Both return normally from every world. *)
Theorem away_mode_transactions (w : world) :
  (∃ w', async_turn_away_mode_on w = (Ok (), w')
     ∧ issued w w'
         [ Cmd COMMAND_SET_CURRENT_OPERATING_MODE
               [ADict {[ STATE_RELAUNCH := PStr STATE_OFF;
                         STATE_ABSENCE := PStr STATE_ON ]}];
           Cmd COMMAND_SET_AWAY_MODE_DURATION [AVal (PInt 2)] ])
  ∧ (∃ w', async_turn_away_mode_off w = (Ok (), w')
       ∧ issued w w'
           [ CLEAR_BOOST;
             Cmd COMMAND_SET_AWAY_MODE_DURATION [AVal (PInt 0)] ]).
Proof.
  split.
  all: unfold async_turn_away_mode_on, async_turn_away_mode_off.
  all: unfold mbind, M_bind, new_dict, async_execute_command.
  all: cbn [heap set_heap commands set_commands states fmap list_fmap].
  all: rewrite ?snapshot_insert.
  all: eexists; split; [reflexivity|].
  all: unfold issued; cbn [commands set_commands]; by rewrite <- app_assoc.
Qed.


(** X4.  No write of the hot-water controller changes a state channel,
    rewrites or drops a dict that exists, or touches the entity's
    attributes: each only appends to the command log and may allocate new
    dicts, whether it returns or raises. *)
Theorem writes_extend (w : world) :
  (∀ kwargs, extends w (async_set_temperature kwargs w).2)
  ∧ (∀ target, extends w (async_set_operation_mode target w).2)
  ∧ extends w (async_turn_away_mode_on w).2
  ∧ extends w (async_turn_away_mode_off w).2.
Proof.
  repeat split; try intros ?.
  all: unfold async_set_temperature, async_set_operation_mode,
         async_turn_away_mode_on, async_turn_away_mode_off,
         current_operation.
  all: keeps.
Qed.

Lemma hot_water_reads_after_extends (w w' : world) :
  allocated w → extends w w' →
  (current_operation w').1 = (current_operation w).1
  ∧ (is_away_mode_on w').1 = (is_away_mode_on w).1.
Proof.
  intros Hal Hext. pose proof Hext as (Hs & Hh & _). split.
  - rewrite !HotWaterSpec.current_operation_eq. cbn [fst]. by rewrite Hs.
  - unfold is_away_mode_on, mbind, M_bind, select_state, get, mret, M_ret.
    rewrite Hs.
    destruct (states w !! CORE_OPERATING_MODE_STATE) as [[| | | |l]|] eqn:E;
      try reflexivity.
    cbn [default from_option id].
    destruct (Hal _ l E) as [d Hd]. by rewrite Hd, (Hh l d Hd).
Qed.

(** X5.  On a store whose references are all allocated, the reads give after any
    write of the controller what they gave before it: the controller never
    anticipates the device, so turning away mode on does not make
    [is_away_mode_on] true, and setting a mode does not change
    [current_operation], until the store itself is refreshed. *)
Theorem writes_keep_reads (w : world) :
  allocated w →
  ∀ w',
    w' = (async_turn_away_mode_on w).2 ∨ w' = (async_turn_away_mode_off w).2
    ∨ (∃ target, w' = (async_set_operation_mode target w).2)
    ∨ (∃ kwargs, w' = (async_set_temperature kwargs w).2) →
    (current_operation w').1 = (current_operation w).1
    ∧ (is_away_mode_on w').1 = (is_away_mode_on w).1
    ∧ ∀ channel, stored w' channel = stored w channel.
Proof.
  intros Hal w' Hw'.
  assert (Hext : extends w w').
  { destruct Hw' as [->| [->| [[target ->]| [kwargs ->]]]].
    all: unfold async_set_temperature, async_set_operation_mode,
           async_turn_away_mode_on, async_turn_away_mode_off,
           current_operation.
    all: keeps. }
  destruct (hot_water_reads_after_extends w w' Hal Hext) as [Hc Ha].
  repeat split; try done. intros channel. by apply extends_stored.
Qed.

(** X6.  A target that is neither [high_demand] nor a key of the reverse table
    makes the transaction raise [KeyError]; by then the command that clears
    boost has already been submitted if the device was in [high_demand],
    and nothing has been submitted otherwise. *)
Theorem set_operation_mode_unsupported (w : world) (current target : pyval) :
  current_operation w = (Ok current, w) →
  target ∉ operation_list →
  (∀ l, target ≠ PRef l) →
  ∃ w', async_set_operation_mode target w = (Raise KeyError, w')
    ∧ issued w w'
        (if py_eq current STATE_HIGH_DEMAND then [CLEAR_BOOST] else []).
Proof.
  intros Hread Hout Href.
  rewrite (set_operation_mode_eq w current target Hread).
  assert (Et : py_eq target STATE_HIGH_DEMAND = false).
  { apply py_eq_false. intros ->. apply Hout.
    rewrite operation_list_items. set_solver. }
  rewrite Et. cbv zeta.
  assert (Es : subscript OPERATION_MODE_TO_TAHOMA target = Raise KeyError).
  { unfold subscript. rewrite HotWaterSpec.OPERATION_MODE_TO_TAHOMA_items.
    destruct target as [|s| | |l]; cbn [find_key key_eqb]; try done.
    - rewrite !(String.eqb_sym _ s).
      repeat (case String.eqb_spec;
              [intros ->; exfalso; apply Hout; rewrite operation_list_items;
               set_solver | intros _]).
      reflexivity.
    - by destruct (Href l). }
  rewrite Es. eexists. split; [reflexivity|].
  unfold issued. destruct (py_eq current STATE_HIGH_DEMAND).
  - reflexivity.
  - by rewrite app_nil_r.
Qed.

(** X7.  Whatever the read returns is one of the modes [operation_list]
    advertises, and every advertised mode can be set: from a world on which
    the read returns, the transaction towards it returns normally. *)
Theorem operation_list_supported (w : world) (current : pyval) :
  current_operation w = (Ok current, w) →
  current ∈ operation_list
  ∧ ∀ mode, mode ∈ operation_list →
      ∃ w', async_set_operation_mode mode w = (Ok (), w').
Proof.
  intros Hread. split.
  - rewrite HotWaterSpec.current_operation_eq in Hread.
    rewrite operation_list_items.
    destruct (py_eq _ STATE_ON); [injection Hread as <-; set_solver|].
    injection Hread as Hsub. revert Hsub.
    generalize (default PNone (states w !! IO_DHW_MODE_STATE)).
    intros raw. unfold subscript, TAHOMA_TO_OPERATION_MODE.
    destruct raw as [|s| | |l]; cbn [find_key key_eqb]; try discriminate.
    repeat (case String.eqb_spec; [intros _ [= <-]; set_solver | intros _]).
    discriminate.
  - intros mode Hin. rewrite operation_list_items in Hin.
    rewrite (set_operation_mode_eq w current mode Hread).
    repeat (apply elem_of_cons in Hin as [->|Hin]);
      [| | | |by apply elem_of_nil in Hin].
    all: by eexists.
Qed.

End Spec.
End HotWaterExtra.

(** ** More of the ventilation controller *)

Module VentilationExtra.
Import const Py PyFacts FrameFacts AtlanticHeatRecoveryVentilation.

Section Spec.
Context {float : Type}.
Variable float_of_str : string → option float.
Abbreviation pyval := (Py.pyval float).
Abbreviation world := (Py.world float).
Abbreviation hass := (Py.hass float).

Abbreviation REFRESHES :=
  [@Cmd float COMMAND_REFRESH_VENTILATION_STATE [];
   @Cmd float COMMAND_REFRESH_VENTILATION_CONFIGURATION_MODE []].

Ltac eval_eqb :=
  repeat match goal with
    | |- context [String.eqb ?a ?b] =>
        let v := eval vm_compute in (String.eqb a b) in
        change (String.eqb a b) with v
    end;
  cbv iota.

Ltac skip_branch := erewrite bind_ok by reflexivity; cbv beta.

Lemma fan_modes_items :
  fan_modes
  = ([ PStr FAN_AUTO; PStr FAN_BOOST; PStr FAN_KITCHEN; PStr FAN_AWAY;
       PStr FAN_BYPASS ] : list pyval).
Proof. reflexivity. Qed.

(** X8.  [_set_ventilation_mode] on a stored record: an argument that is a
    non-empty string overwrites its entry, an argument that is [None] or the
    empty string leaves its entry alone, every other entry is kept, and the
    one command submitted carries the resulting record, which is also what
    the store then shows. *)
Theorem set_ventilation_mode_payload (w : world) l d
    (cooling prog : option string) :
  holds_record w IO_VENTILATION_MODE_STATE l d →
  ∃ w' d',
    _set_ventilation_mode cooling prog w = (Ok (), w')
    ∧ issued w w' [Cmd COMMAND_SET_VENTILATION_MODE [ADict d']]
    ∧ stored w' IO_VENTILATION_MODE_STATE = Some (ADict d')
    ∧ d' !! "cooling"
      = (if truthy cooling then Some (of_opt cooling) else d !! "cooling")
    ∧ d' !! "prog" = (if truthy prog then Some (of_opt prog) else d !! "prog")
    ∧ ∀ k, k ≠ "cooling" → k ≠ "prog" → d' !! k = d !! k.
Proof.
  intros [Hs Hh].
  set (d1 := if truthy cooling then <["cooling" := of_opt cooling]> d else d).
  set (d2 := if truthy prog then <["prog" := of_opt prog]> d1 else d1).
  assert (Hrun : _set_ventilation_mode cooling prog w
                 = (Ok (),
                    set_commands
                      (if truthy cooling || truthy prog
                       then set_heap w (<[l := d2]> (heap w)) else w)
                      (commands w
                       ++ [Cmd COMMAND_SET_VENTILATION_MODE [ADict d2]]))).
  { unfold _set_ventilation_mode, mbind, M_bind, select_state.
    rewrite Hs. cbn [default from_option id]. subst d1 d2.
    destruct (truthy cooling); destruct (truthy prog); cbn [orb].
    all: unfold setitem, async_execute_command, mret, M_ret.
    all: rewrite ?Hh; cbn [heap set_heap].
    all: rewrite ?lookup_insert_eq; cbn [heap set_heap commands].
    all: cbn [fmap list_fmap]; unfold snapshot.
    all: rewrite ?lookup_insert_eq, ?Hh, ?insert_insert_eq.
    all: reflexivity. }
  exists (set_commands
            (if truthy cooling || truthy prog
             then set_heap w (<[l := d2]> (heap w)) else w)
            (commands w ++ [Cmd COMMAND_SET_VENTILATION_MODE [ADict d2]])), d2.
  split; [exact Hrun|]. split.
  { unfold issued. by destruct (truthy cooling || truthy prog). }
  split.
  { unfold stored, snapshot.
    destruct (truthy cooling || truthy prog) eqn:E;
      cbn [heap set_heap states commands set_commands]; rewrite Hs;
      cbn [fmap option_fmap option_map].
    - by rewrite lookup_insert_eq.
    - rewrite Hh. apply orb_false_elim in E as [Ec Ep].
      subst d1 d2. by rewrite Ec, Ep. }
  subst d1 d2. destruct (truthy cooling); destruct (truthy prog).
  all: repeat split; try (intros k Hk1 Hk2).
  all: repeat first [ rewrite lookup_insert_eq
                    | rewrite lookup_insert_ne by done ].
  all: done.
Qed.



(** X11.  Neither read changes the world, whether it returns or raises; what
    [fan_mode] returns is one of [fan_modes], and what [preset_mode] returns
    is [None] or one of [preset_modes]. *)
Theorem reads_within_lists (w : world) :
  (preset_mode w).2 = w ∧ (fan_mode w).2 = w
  ∧ (∀ v, (preset_mode w).1 = Ok v →
       v = PNone ∨ ∃ s, v = PStr s ∧ s ∈ preset_modes)
  ∧ (∀ v, (fan_mode w).1 = Ok v → v ∈ fan_modes).
Proof.
  destruct (states w !! IO_VENTILATION_MODE_STATE) as [v|] eqn:Es.
  2: { unfold preset_mode, fan_mode, mbind, M_bind, select_state, get.
       rewrite Es. by repeat split. }
  destruct v as [| | | |l].
  1-4: unfold preset_mode, fan_mode, mbind, M_bind, select_state, get;
       rewrite Es; by repeat split.
  destruct (heap w !! l) as [d|] eqn:Eh.
  2: { unfold preset_mode, fan_mode, mbind, M_bind, select_state, get.
       rewrite Es. cbn [default from_option id]. rewrite Eh.
       by repeat split. }
  rewrite (VentilationSpec.preset_mode_eq w l d (conj Es Eh)).
  rewrite (VentilationSpec.fan_mode_eq w l d (conj Es Eh)).
  cbn [fst snd]. cbv zeta. split; [done|]. split; [done|]. split.
  - intros v. unfold preset_modes, PRESET_MODES.
    repeat case (py_eq _ _); intros [= <-]; (by left) || right.
    all: eexists; split; [reflexivity|set_solver].
  - intros v. rewrite fan_modes_items.
    case (py_eq _ _); [intros [= <-]; set_solver|].
    generalize (default PNone (states w !! IO_AIR_DEMAND_MODE_STATE)).
    intros demand. unfold subscript, TAHOMA_TO_FAN_MODES.
    destruct demand as [|s| | |l']; cbn [find_key key_eqb];
      try discriminate.
    + intros [= <-]. set_solver.
    + repeat (case String.eqb_spec; [intros _ [= <-]; set_solver | intros _]).
      discriminate.
Qed.

(** X12.  Every mode [fan_modes] advertises can be set: the call returns normally
    and submits [setAirDemandMode] with a vendor string, never [None], then
    the two refreshes.  Any other mode raises [KeyError] before anything is
    submitted, the refreshes included. *)
Theorem fan_modes_supported (w : world) (mode : string) :
  (@PStr float mode ∈ fan_modes →
     ∃ vendor w',
       async_set_fan_mode mode w = (Ok (), w')
       ∧ vendor ∈ ["auto"; "away"; "boost"; "high"]
       ∧ issued w w'
           (Cmd COMMAND_SET_AIR_DEMAND_MODE [AVal (PStr vendor)]
            :: REFRESHES))
  ∧ (@PStr float mode ∉ fan_modes →
       async_set_fan_mode mode w = (Raise KeyError, w)).
Proof.
  rewrite fan_modes_items. split.
  - intros Hin.
    repeat (apply elem_of_cons in Hin as [[= ->]|Hin]);
      [| | | | |by apply elem_of_nil in Hin].
    all: eexists _, _; split; [by apply VentilationSpec.set_fan_mode_run|].
    all: split; [|done]; set_solver.
  - intros Hout. unfold async_set_fan_mode.
    assert (String.eqb mode FAN_BYPASS = false) as ->
      by (apply String.eqb_neq; intros ->; apply Hout; set_solver).
    assert (Es : subscript FAN_MODES_TO_TAHOMA (@PStr float mode)
                 = Raise KeyError).
    { unfold subscript. rewrite VentilationSpec.FAN_MODES_TO_TAHOMA_items.
      cbn [find_key key_eqb]. rewrite !(String.eqb_sym _ mode).
      repeat (case String.eqb_spec;
              [intros ->; exfalso; apply Hout; set_solver | intros _]).
      reflexivity. }
    unfold mbind, M_bind, lift. by rewrite Es.
Qed.

Lemma ventilation_reads_after_extends (w w' : world) :
  allocated w → extends w w' →
  (fan_mode w').1 = (fan_mode w).1 ∧ (preset_mode w').1 = (preset_mode w).1.
Proof.
  intros Hal (Hs & Hh & _).
  destruct (states w !! IO_VENTILATION_MODE_STATE) as [v|] eqn:E.
  2: { unfold fan_mode, preset_mode, mbind, M_bind, select_state, get.
       by rewrite !Hs, E. }
  destruct v as [| | | |l].
  1-4: unfold fan_mode, preset_mode, mbind, M_bind, select_state, get;
       by rewrite !Hs, E.
  destruct (Hal _ l E) as [d Hd].
  assert (Hrec : holds_record w IO_VENTILATION_MODE_STATE l d) by done.
  assert (Hrec' : holds_record w' IO_VENTILATION_MODE_STATE l d).
  { split; [by rewrite Hs|by apply Hh]. }
  rewrite (VentilationSpec.fan_mode_eq w l d Hrec).
  rewrite (VentilationSpec.fan_mode_eq w' l d Hrec').
  rewrite (VentilationSpec.preset_mode_eq w l d Hrec).
  rewrite (VentilationSpec.preset_mode_eq w' l d Hrec').
  cbn [fst]. by rewrite Hs.
Qed.

(** X13.  [async_set_fan_mode] only appends to the command log, and on a store
    whose references are all allocated both reads give after it what they
    gave before: the fan mode asked for is not anticipated. *)
Theorem set_fan_mode_keeps_reads (w : world) (mode : string) :
  allocated w →
  extends w (async_set_fan_mode mode w).2
  ∧ (fan_mode (async_set_fan_mode mode w).2).1 = (fan_mode w).1
  ∧ (preset_mode (async_set_fan_mode mode w).2).1 = (preset_mode w).1.
Proof.
  intros Hal.
  assert (Hext : extends w (async_set_fan_mode mode w).2)
    by (unfold async_set_fan_mode; keeps).
  split; [exact Hext|]. by apply ventilation_reads_after_extends.
Qed.

(** A supported preset on a stored record, with the world it leaves. *)
Lemma set_preset_mode_run (w : world) l d (preset conf prog : string) :
  holds_record w IO_VENTILATION_MODE_STATE l d →
  (preset, conf, prog) ∈ [ (PRESET_AUTO, "comfort", "off");
                           (PRESET_PROG, "standard", "on");
                           (PRESET_MANUAL, "standard", "off") ] →
  async_set_preset_mode preset w
  = (Ok (),
     set_commands
       (set_heap w (<[l := <["prog" := PStr prog]> d]> (heap w)))
       (commands w
        ++ [ Cmd COMMAND_SET_VENTILATION_CONFIGURATION_MODE [AVal (PStr conf)];
             Cmd COMMAND_SET_VENTILATION_MODE
                 [ADict (<["prog" := PStr prog]> d)];
             Cmd COMMAND_REFRESH_VENTILATION_STATE [];
             Cmd COMMAND_REFRESH_VENTILATION_CONFIGURATION_MODE [] ])).
Proof.
  intros Hrec Hin.
  repeat (apply elem_of_cons in Hin as [[= -> -> ->]|Hin]);
    [| | |by apply elem_of_nil in Hin].
  all: unfold async_set_preset_mode; eval_eqb.
  1: erewrite bind_ok
       by (by apply (VentilationSpec.configure_then_prog w l d));
     cbv beta; do 2 skip_branch.
  2: skip_branch;
     erewrite bind_ok
       by (by apply (VentilationSpec.configure_then_prog w l d));
     cbv beta; skip_branch.
  3: do 2 skip_branch;
     erewrite bind_ok
       by (by apply (VentilationSpec.configure_then_prog w l d));
     cbv beta.
  all: rewrite VentilationSpec.refreshes_run.
  all: cbn [commands set_commands set_heap heap states
            _temp_sensor_entity_id _current_temperature error_log
            scheduled_updates].
  all: by rewrite <- app_assoc.
Qed.

(** X14.  Reading back right after a supported preset was set, with no refresh in
    between: the [prog] part of the read follows the write at once, since
    the flag was written into the stored record, but the configuration part
    still follows the stored configuration channel.  So after [prog] the
    read is [prog]; after [auto] or [manual] it is [auto] if the channel
    holds "comfort", [manual] if it holds "standard", else [None], whichever
    of the two was asked for.  The fan mode read is not disturbed. *)
Theorem set_preset_mode_then_reads (w : world) l d
    (preset conf prog : string) :
  holds_record w IO_VENTILATION_MODE_STATE l d →
  (preset, conf, prog) ∈ [ (PRESET_AUTO, "comfort", "off");
                           (PRESET_PROG, "standard", "on");
                           (PRESET_MANUAL, "standard", "off") ] →
  let w' := (async_set_preset_mode preset w).2 in
  let stored_conf :=
    default PNone (states w !! IO_VENTILATION_CONFIGURATION_MODE_STATE) in
  (preset_mode w').1
  = Ok (if String.eqb preset PRESET_PROG then PStr PRESET_PROG
        else if py_eq stored_conf "comfort" then PStr PRESET_AUTO
        else if py_eq stored_conf "standard" then PStr PRESET_MANUAL
        else PNone)
  ∧ (fan_mode w').1 = (fan_mode w).1.
Proof.
  intros Hrec Hin. cbv zeta.
  rewrite (set_preset_mode_run w l d preset conf prog Hrec Hin). cbn [snd].
  pose proof Hrec as [Hs Hh].
  set (w' := set_commands _ _).
  assert (Hrec' : holds_record w' IO_VENTILATION_MODE_STATE l
                    (<["prog" := PStr prog]> d)).
  { split; [exact Hs|]. subst w'. cbn [heap set_heap set_commands].
    apply lookup_insert_eq. }
  rewrite (VentilationSpec.preset_mode_eq w' l _ Hrec').
  rewrite (VentilationSpec.fan_mode_eq w' l _ Hrec').
  rewrite (VentilationSpec.fan_mode_eq w l d Hrec).
  cbn [fst]. cbv zeta. rewrite lookup_insert_eq.
  rewrite lookup_insert_ne by done. split; [|reflexivity].
  change (states w') with (states w).
  repeat (apply elem_of_cons in Hin as [[= -> -> ->]|Hin]);
    [| | |by apply elem_of_nil in Hin].
  all: reflexivity.
Qed.

(** X15.  A notification that is handled (a new state, different from the old
    one) schedules exactly one state write of the entity, also when its value
    is "unknown" or does not parse; one that is ignored schedules none.  No
    notification changes the sensor binding, submits a command or touches
    the store, and none empties a cache that holds a reading. *)
Theorem temp_sensor_changed_effects (w : world) (entity_id : string)
    (old_state new_state : option State) :
  let w' :=
    (_async_temp_sensor_changed float_of_str entity_id old_state new_state
       w).2 in
  scheduled_updates w'
  = (if bool_decide (new_state = None) || bool_decide (old_state = new_state)
     then scheduled_updates w else S (scheduled_updates w))
  ∧ _temp_sensor_entity_id w' = _temp_sensor_entity_id w
  ∧ commands w' = commands w ∧ states w' = states w ∧ heap w' = heap w
  ∧ (is_Some (_current_temperature w) → is_Some (_current_temperature w')).
Proof.
  cbv zeta. unfold _async_temp_sensor_changed.
  destruct (bool_decide (new_state = None) || bool_decide (old_state = new_state));
    [by repeat split|].
  unfold mbind, M_bind, update_temp, schedule_update_ha_state, _LOGGER_error,
    mret, M_ret.
  destruct new_state as [st|]; [|by repeat split].
  destruct (String.eqb (state st) STATE_UNKNOWN); [by repeat split|].
  destruct (float_of_str (state st)); by repeat split.
Qed.

(** *** Set-up and start *)

Lemma next_entity_none (target : string) (items : list (string * string)) :
  target ∉ items.*2 → next_entity target items = None.
Proof.
  induction items as [|[e u] items IH]; [done|].
  rewrite fmap_cons, not_elem_of_cons. cbn [snd next_entity].
  intros [Hne Hnin]. apply not_eq_sym, String.eqb_neq in Hne.
  rewrite Hne. by apply IH.
Qed.

Lemma next_entity_first (target e : string) (pre post : list (string * string)) :
  target ∉ pre.*2 → next_entity target (pre ++ (e, target) :: post) = Some e.
Proof.
  induction pre as [|[e' u] pre IH]; cbn [app next_entity].
  - intros _. by rewrite String.eqb_refl.
  - rewrite fmap_cons, not_elem_of_cons. cbn [snd].
    intros [Hne Hnin]. apply not_eq_sym, String.eqb_neq in Hne.
    rewrite Hne. by apply IH.
Qed.

(** X16.  The sensor binding made by [async_added_to_hass].  The entity is bound
    to the first registry entry whose unique id is the base url followed by
    "#4", and subscribed to that entity's changes; entries after the first
    match are not looked at.  With no such entry the binding is [None], no
    subscription is made and one warning is logged; an empty entity id
    counts as not found.  In every case one start listener is registered
    and one state write scheduled, and the cached temperature, the command
    log and the store are not touched. *)
Theorem sensor_binding (base_url : string) (h : hass) :
  let target := (base_url ++ "#4")%string in
  let h' := async_added_to_hass base_url h in
  let warning := "Temperature sensor could not be found for entity %s" in
  (target ∉ (entities h).*2 →
     _temp_sensor_entity_id (entity h') = None
     ∧ tracked h' = tracked h ∧ warnings h' = warnings h ++ [warning])
  ∧ (∀ pre e post,
       entities h = pre ++ (e, target) :: post → target ∉ pre.*2 →
       _temp_sensor_entity_id (entity h') = Some e
       ∧ (e ≠ "" → tracked h' = tracked h ++ [e] ∧ warnings h' = warnings h)
       ∧ (e = "" →
            tracked h' = tracked h ∧ warnings h' = warnings h ++ [warning]))
  ∧ start_listeners h' = S (start_listeners h)
  ∧ scheduled_updates (entity h') = S (scheduled_updates (entity h))
  ∧ _current_temperature (entity h') = _current_temperature (entity h)
  ∧ commands (entity h') = commands (entity h)
  ∧ states (entity h') = states (entity h)
  ∧ heap (entity h') = heap (entity h)
  ∧ entities h' = entities h ∧ hass_states h' = hass_states h.
Proof.
  cbv zeta. unfold async_added_to_hass. cbv zeta.
  cbn [entity set_entity set_temp_sensor_entity_id _temp_sensor_entity_id].
  split; [|split].
  - intros Hnone. rewrite (next_entity_none _ _ Hnone). by cbn.
  - intros pre e post -> Hpre. rewrite (next_entity_first _ e pre post Hpre).
    cbn [truthy default from_option id].
    split; [by destruct (String.eqb e "")|].
    split.
    + intros Hne. apply String.eqb_neq in Hne. by rewrite Hne.
    + intros ->. by cbn.
  - destruct (truthy _); by cbn.
Qed.

Lemma added_to_hass_found (base_url e : string) (h : hass) :
  next_entity (base_url ++ "#4") (entities h) = Some e → e ≠ "" →
  async_added_to_hass base_url h
  = Hass (set_scheduled_updates
            (set_temp_sensor_entity_id (entity h) (Some e))
            (S (scheduled_updates (entity h))))
         (entities h) (hass_states h) (tracked h ++ [e])
         (S (start_listeners h)) (warnings h).
Proof.
  intros Hfound Hne. apply String.eqb_neq in Hne.
  unfold async_added_to_hass. cbv zeta. rewrite Hfound.
  cbn [entity set_entity set_temp_sensor_entity_id _temp_sensor_entity_id
       truthy default from_option id].
  rewrite Hne. reflexivity.
Qed.

Lemma added_to_hass_not_found (base_url : string) (h : hass) :
  next_entity (base_url ++ "#4") (entities h) = None →
  async_added_to_hass base_url h
  = Hass (set_scheduled_updates
            (set_temp_sensor_entity_id (entity h) None)
            (S (scheduled_updates (entity h))))
         (entities h) (hass_states h) (tracked h)
         (S (start_listeners h))
         (warnings h
          ++ ["Temperature sensor could not be found for entity %s"]).
Proof.
  intros Hnone. unfold async_added_to_hass. cbv zeta. by rewrite Hnone.
Qed.

(** X17.  From a fresh entity to the first reading.  Set up against a registry
    that lists the sensor, and started while the sensor's last state is
    known, the entity reads that state's number as its current temperature
    if the value parses, and [None] with one error logged if it does not.
    Set up against a registry that does not list the sensor, or started
    while the sensor has no state or the state "unknown", it reads [None]
    and logs no error. *)
Theorem startup_temperature (base_url : string) (h : hass) :
  let target := (base_url ++ "#4")%string in
  let h' :=
    _async_startup float_of_str
      (async_added_to_hass base_url (set_entity h (__init__ (entity h)))) in
  (∀ pre e post st,
     entities h = pre ++ (e, target) :: post → target ∉ pre.*2 → e ≠ "" →
     hass_states h !! e = Some st → state st ≠ STATE_UNKNOWN →
     match float_of_str (state st) with
     | Some x => _current_temperature (entity h') = Some x
                 ∧ error_log (entity h') = error_log (entity h)
     | None => _current_temperature (entity h') = None
               ∧ error_log (entity h')
                 = error_log (entity h) ++ ["Unable to update from sensor: %s"]
     end)
  ∧ (target ∉ (entities h).*2
     ∨ (∃ pre e post,
          entities h = pre ++ (e, target) :: post ∧ (target ∉ pre.*2)
          ∧ e ≠ ""
          ∧ (hass_states h !! e = None
             ∨ ∃ st, hass_states h !! e = Some st
                     ∧ state st = STATE_UNKNOWN)) →
     _current_temperature (entity h') = None
     ∧ error_log (entity h') = error_log (entity h)).
Proof.
  cbv zeta. split.
  - intros pre e post st Hent Hpre Hne Hst Hknown.
    rewrite (added_to_hass_found base_url e);
      [|cbn [entities set_entity]; rewrite Hent; by apply next_entity_first
       |done].
    apply String.eqb_neq in Hne, Hknown.
    unfold _async_startup.
    cbn [entity _temp_sensor_entity_id set_scheduled_updates
         set_temp_sensor_entity_id truthy default from_option id hass_states
         set_entity].
    rewrite Hne. cbn [negb]. rewrite Hst, Hknown. cbn [negb].
    unfold update_temp. rewrite Hknown.
    by destruct (float_of_str (state st)).
  - intros [Hnone|(pre & e & post & Hent & Hpre & Hne & Hst)].
    + rewrite added_to_hass_not_found
        by (cbn [entities set_entity]; by apply next_entity_none).
      done.
    + rewrite (added_to_hass_found base_url e);
        [|cbn [entities set_entity]; rewrite Hent; by apply next_entity_first
         |done].
      apply String.eqb_neq in Hne. unfold _async_startup.
      cbn [entity _temp_sensor_entity_id set_scheduled_updates
           set_temp_sensor_entity_id truthy default from_option id hass_states
           set_entity].
      rewrite Hne. cbn [negb].
      destruct Hst as [->|(st & -> & Hu)]; [done|].
      apply String.eqb_eq in Hu. by rewrite Hu.
Qed.

End Spec.
End VentilationExtra.

(** ** Runs of the added properties on concrete worlds *)

Module ExtraWitness.
Import const Py PyFacts FrameFacts.

(** The references stored in the example worlds are allocated. *)
Lemma away_eco_allocated : allocated Examples.away_eco.
Proof.
  intros channel l. unfold Examples.away_eco. cbn [states heap].
  rewrite !lookup_insert_Some, lookup_singleton_Some.
  intros [[_ E]|[_ [[_ E]|[_ [_ E]]]]]; try discriminate E.
  injection E as <-. by eexists.
Qed.

Lemma demand_high_allocated : allocated Examples.demand_high.
Proof.
  intros channel l. unfold Examples.demand_high. cbn [states heap].
  rewrite !lookup_insert_Some, lookup_singleton_Some.
  intros [[_ E]|[_ [[_ E]|[_ [_ E]]]]]; try discriminate E.
  injection E as <-. by eexists.
Qed.

Ltac not_in :=
  let H := fresh in
  intros H;
  repeat (apply elem_of_cons in H as [H|H]; [discriminate H|]);
  by apply elem_of_nil in H.




(** Away mode is on, it is turned off, and the read is still true. *)
Lemma writes_keep_reads_witness :
  (DomesticHotWaterProduction.is_away_mode_on
     (DomesticHotWaterProduction.async_turn_away_mode_off
        Examples.away_eco).2).1
  = Ok true.
Proof.
  destruct (HotWaterExtra.writes_keep_reads Examples.away_eco
              away_eco_allocated _ (or_intror (or_introl eq_refl)))
    as (_ & Haway & _).
  rewrite Haway. reflexivity.
Defined.

Lemma set_operation_mode_unsupported_witness :
  ∃ w', DomesticHotWaterProduction.async_set_operation_mode (PStr "turbo")
          Examples.boosting = (Raise KeyError, w')
    ∧ issued Examples.boosting w'
        [ Cmd DomesticHotWaterProduction.COMMAND_SET_CURRENT_OPERATING_MODE
              [ADict {[ "relaunch" := PStr "off"; "absence" := PStr "off" ]}] ].
Proof.
  apply (HotWaterExtra.set_operation_mode_unsupported Examples.boosting
           (PStr STATE_HIGH_DEMAND) (PStr "turbo")).
  - reflexivity.
  - rewrite HotWaterExtra.operation_list_items. not_in.
  - discriminate.
Defined.

Lemma operation_list_supported_witness :
  ∃ w', DomesticHotWaterProduction.async_set_operation_mode (PStr STATE_ECO)
          Examples.boosting = (Ok (), w').
Proof.
  apply (proj2 (HotWaterExtra.operation_list_supported Examples.boosting
                  (PStr STATE_HIGH_DEMAND) eq_refl)).
  rewrite HotWaterExtra.operation_list_items. apply elem_of_cons. by left.
Defined.

Lemma set_ventilation_mode_payload_witness :
  ∃ w' d',
    AtlanticHeatRecoveryVentilation._set_ventilation_mode (Some "on") None
      Examples.standard_prog_on = (Ok (), w')
    ∧ stored w' AtlanticHeatRecoveryVentilation.IO_VENTILATION_MODE_STATE
      = Some (ADict d')
    ∧ d' !! "cooling" = Some (PStr "on")
    ∧ d' !! "prog" = Some (PStr "on").
Proof.
  destruct (VentilationExtra.set_ventilation_mode_payload
              Examples.standard_prog_on 1%positive {[ "prog" := PStr "on" ]}
              (Some "on") None (conj eq_refl eq_refl))
    as (w' & d' & Hrun & _ & Hstored & Hcooling & Hprog & _).
  exists w', d'. split; [exact Hrun|]. split; [exact Hstored|].
  split; [exact Hcooling|exact Hprog].
Defined.



Lemma fan_modes_supported_witness :
  AtlanticHeatRecoveryVentilation.async_set_fan_mode "turbo"
    Examples.demand_high
  = (Raise KeyError, Examples.demand_high).
Proof.
  apply (proj2 (VentilationExtra.fan_modes_supported Examples.demand_high
                  "turbo")).
  rewrite VentilationExtra.fan_modes_items. not_in.
Defined.

(** The demand is "high"; bypass is asked for; the read is still away. *)
Lemma set_fan_mode_keeps_reads_witness :
  (AtlanticHeatRecoveryVentilation.fan_mode
     (AtlanticHeatRecoveryVentilation.async_set_fan_mode
        AtlanticHeatRecoveryVentilation.FAN_BYPASS Examples.demand_high).2).1
  = Ok (PStr AtlanticHeatRecoveryVentilation.FAN_AWAY).
Proof.
  destruct (VentilationExtra.set_fan_mode_keeps_reads Examples.demand_high
              AtlanticHeatRecoveryVentilation.FAN_BYPASS demand_high_allocated)
    as (_ & Hfan & _).
  rewrite Hfan. reflexivity.
Defined.

(** From [standard] with the programme on, [auto] is asked for and the
    read that follows is [manual]. *)
Lemma set_preset_mode_then_reads_witness :
  (AtlanticHeatRecoveryVentilation.preset_mode
     (AtlanticHeatRecoveryVentilation.async_set_preset_mode
        AtlanticHeatRecoveryVentilation.PRESET_AUTO
        Examples.standard_prog_on).2).1
  = Ok (PStr AtlanticHeatRecoveryVentilation.PRESET_MANUAL).
Proof.
  refine (proj1 (VentilationExtra.set_preset_mode_then_reads
                   Examples.standard_prog_on 1%positive
                   {[ "prog" := PStr "on" ]}
                   AtlanticHeatRecoveryVentilation.PRESET_AUTO "comfort" "off"
                   (conj eq_refl eq_refl) _)).
  apply elem_of_cons. by left.
Defined.

Lemma sensor_binding_witness :
  let h' :=
    AtlanticHeatRecoveryVentilation.async_added_to_hass
      "io://1234-5678-9012/3456789" Examples.host in
  _temp_sensor_entity_id (entity h') = Some "sensor.ventilation_temperature"
  ∧ tracked h' = ["sensor.ventilation_temperature"]
  ∧ warnings h' = [].
Proof.
  destruct (VentilationExtra.sensor_binding "io://1234-5678-9012/3456789"
              Examples.host) as (_ & Hfound & _).
  destruct (Hfound
              [("climate.ventilation", "io://1234-5678-9012/3456789#1")]
              "sensor.ventilation_temperature"
              [("sensor.duplicate", "io://1234-5678-9012/3456789#4")]
              eq_refl) as (Hbound & Htracked & _).
  { cbn. not_in. }
  destruct Htracked as [Ht Hw]; [discriminate|].
  cbv zeta. split; [exact Hbound|]. split; [exact Ht|exact Hw].
Defined.

Lemma startup_temperature_witness :
  _current_temperature
    (entity
       (AtlanticHeatRecoveryVentilation._async_startup Examples.int_of_str
          (AtlanticHeatRecoveryVentilation.async_added_to_hass
             "io://1234-5678-9012/3456789"
             (set_entity Examples.host
                (AtlanticHeatRecoveryVentilation.__init__
                   (entity Examples.host))))))
  = Some 21%Z.
Proof.
  refine (proj1 (proj1 (VentilationExtra.startup_temperature
                   Examples.int_of_str "io://1234-5678-9012/3456789"
                   Examples.host)
            [("climate.ventilation", "io://1234-5678-9012/3456789#1")]
            "sensor.ventilation_temperature"
            [("sensor.duplicate", "io://1234-5678-9012/3456789#4")]
            (mkState "sensor.ventilation_temperature" "21" ∅ "ctx")
            eq_refl _ _ eq_refl _)).
  - cbn. not_in.
  - discriminate.
  - discriminate.
Defined.

End ExtraWitness.
